(** * autolysis.py: the automated dataset analysis pipeline

    A shallow embedding of [AutomatedAnalysis] (src/autolysis.py).  The
    methods of the class are functions in a small state-and-exception monad
    over the instance ([self]) and the trace of effects (prints, outbound
    requests, sleeps, file operations).  A Python exception leaves every
    mutation made before it in place, so a failed computation still returns
    its state.

    What the program obtains from outside (file contents, the environment,
    the text-generation service, the file system) and the numerical kernels
    of the libraries it calls (pandas date parsing and [describe],
    scikit-learn's scaler and KMeans) are fields of a [World]: the
    development holds for every world.  The shape checks that those library
    entry points perform before computing are written out, because the
    program's error behaviour is decided by them.

    Numbers are as the program has them: an integer column holds integers,
    a float column holds binary64 values, with their infinities and NaN and
    with the rounding and overflow of IEEE 754 arithmetic ([SpecFloat], the
    executable specification of binary64 of the Standard Library).  A Python
    string is the string of its UTF-8 bytes. *)

From Stdlib Require Import String Ascii List ZArith Bool Arith Lia.
From Stdlib Require Import SpecFloat DecimalString.
Import ListNotations.
Local Open Scope string_scope.
Local Open Scope list_scope.

(* ===================================================================== *)
(** * Python values *)
(* ===================================================================== *)

(** An exception: its class name and [str(e)]. *)
Record exn : Type := Exn { exn_class : string; exn_msg : string }.

Definition result (A : Type) : Type := (exn + A)%type.

Definition ValueError (msg : string) : exn := Exn "ValueError" msg.
(** In Python 3 [EnvironmentError] is another name of [OSError]. *)
Definition EnvironmentError (msg : string) : exn := Exn "OSError" msg.
Definition RetryError : exn := Exn "RetryError" "RetryError".

Definition nl : string := String (ascii_of_nat 10) EmptyString.

Definition str_of_nat (n : nat) : string :=
  NilZero.string_of_uint (Nat.to_uint n).

(** [s.split(sep)] for a one-character separator: the maximal runs between
    separators, empty runs included. *)
Fixpoint split_on (sep : ascii) (s : string) : list string :=
  match s with
  | EmptyString => [EmptyString]
  | String c rest =>
      if Ascii.eqb c sep then EmptyString :: split_on sep rest
      else match split_on sep rest with
           | [] => [String c EmptyString]
           | hd :: tl => String c hd :: tl
           end
  end.

(** The characters that [str.strip()] removes are those of [str.isspace()]:
    U+0009..000D, U+001C..0020, U+0085, U+00A0, U+1680, U+2000..200A, U+2028,
    U+2029, U+202F, U+205F and U+3000.  In UTF-8 the first ones are one byte
    each, U+0085 and U+00A0 two bytes, the others three. *)
Definition is_space (c : ascii) : bool :=
  let n := nat_of_ascii c in
  (Nat.eqb n 32 || (Nat.leb 9 n && Nat.leb n 13) || (Nat.leb 28 n && Nat.leb n 31))%bool.

(** U+0085 is C2 85, U+00A0 is C2 A0. *)
Definition is_space2 (a b : ascii) : bool :=
  let x := nat_of_ascii a in
  let y := nat_of_ascii b in
  (Nat.eqb x 194 && (Nat.eqb y 133 || Nat.eqb y 160))%bool.

(** U+1680 is E1 9A 80; U+2000..200A, U+2028, U+2029 and U+202F are E2 80
    followed by 80..8A, A8, A9 and AF; U+205F is E2 81 9F; U+3000 is
    E3 80 80. *)
Definition is_space3 (a b c : ascii) : bool :=
  let x := nat_of_ascii a in
  let y := nat_of_ascii b in
  let z := nat_of_ascii c in
  ((Nat.eqb x 225 && Nat.eqb y 154 && Nat.eqb z 128)
   || (Nat.eqb x 226 && Nat.eqb y 128
       && ((Nat.leb 128 z && Nat.leb z 138) || Nat.eqb z 168 || Nat.eqb z 169
           || Nat.eqb z 175))
   || (Nat.eqb x 226 && Nat.eqb y 129 && Nat.eqb z 159)
   || (Nat.eqb x 227 && Nat.eqb y 128 && Nat.eqb z 128))%bool.

(** [s.lstrip()]: the whitespace characters at the start removed. *)
Fixpoint lstrip (s : string) : string :=
  match s with
  | EmptyString => EmptyString
  | String a r1 =>
      if is_space a then lstrip r1
      else match r1 with
           | EmptyString => s
           | String b r2 =>
               if is_space2 a b then lstrip r2
               else match r2 with
                    | EmptyString => s
                    | String c r3 => if is_space3 a b c then lstrip r3 else s
                    end
           end
  end.

(** The same on a string read backwards: the bytes of a character come
    last byte first. *)
Fixpoint lstrip_backwards (s : string) : string :=
  match s with
  | EmptyString => EmptyString
  | String a r1 =>
      if is_space a then lstrip_backwards r1
      else match r1 with
           | EmptyString => s
           | String b r2 =>
               if is_space2 b a then lstrip_backwards r2
               else match r2 with
                    | EmptyString => s
                    | String c r3 =>
                        if is_space3 c b a then lstrip_backwards r3 else s
                    end
           end
  end.

Fixpoint string_rev_onto (s acc : string) : string :=
  match s with
  | EmptyString => acc
  | String c rest => string_rev_onto rest (String c acc)
  end.

Definition string_rev (s : string) : string := string_rev_onto s EmptyString.

(** [s.strip()] *)
Definition strip (s : string) : string :=
  string_rev (lstrip_backwards (string_rev (lstrip s))).

(* ===================================================================== *)
(** * Numbers *)
(* ===================================================================== *)

(** A float64: zero, infinity, NaN, or sign, mantissa and exponent. *)
Definition float64 : Type := spec_float.

Definition nan : float64 := S754_nan.

Definition isnan (x : float64) : bool :=
  match x with S754_nan => true | _ => false end.

Definition isinf (x : float64) : bool :=
  match x with S754_infinity _ => true | _ => false end.

(** Addition and division of binary64, rounded to nearest even. *)
Definition f_add : float64 -> float64 -> float64 := SFadd 53 1024.
Definition f_div : float64 -> float64 -> float64 := SFdiv 53 1024.
Definition f_leb : float64 -> float64 -> bool := SFleb.

(** An integer as the nearest float64 ([float(z)], [astype(float64)]): exact
    up to 2^53 in absolute value, rounded above. *)
Definition float_of_int (z : Z) : float64 := binary_normalize 53 1024 z 0 false.

Definition f_zero : float64 := S754_zero false.
Definition f_two : float64 := S754_finite false 4503599627370496 (-51).

(** 1.7e308, that is 0x1.e42d130773b76p+1023: more than half the largest
    float64. *)
Definition f_huge : float64 := S754_finite false 8517715530038134 971.

(** 0.1, 0.2 and 0.15000000000000002 as float64. *)
Definition f_tenth : float64 := S754_finite false 7205759403792794 (-56).
Definition f_fifth : float64 := S754_finite false 7205759403792794 (-55).
Definition f_0_15000000000000002 : float64 := S754_finite false 5404319552844596 (-55).

(* ===================================================================== *)
(** * The Table: a pandas DataFrame *)
(* ===================================================================== *)

(** A column by dtype.  An integer column (int64, and the int32 of the
    labels) has no missing marker; the missing marker of a float column is
    NaN, of an object column NaN ([None] here), of a datetime column NaT
    ([None] here). *)
Inductive column : Type :=
| ColInt (cells : list Z)
| ColFloat (cells : list float64)
| ColObject (cells : list (option string))
| ColDatetime (cells : list (option Z)).

Inductive dtype : Type := DInt | DFloat | DObject | DDatetime.

Definition dtype_eqb (a b : dtype) : bool :=
  match a, b with
  | DInt, DInt | DFloat, DFloat | DObject, DObject | DDatetime, DDatetime => true
  | _, _ => false
  end.

(** [np.number]: the numeric dtypes. *)
Definition DNumber (t : dtype) : bool :=
  match t with
  | DInt | DFloat => true
  | _ => false
  end.

(** [include=[t]] for one dtype. *)
Definition only (t : dtype) : dtype -> bool := dtype_eqb t.

Definition col_dtype (c : column) : dtype :=
  match c with
  | ColInt _ => DInt
  | ColFloat _ => DFloat
  | ColObject _ => DObject
  | ColDatetime _ => DDatetime
  end.

Definition col_len (c : column) : nat :=
  match c with
  | ColInt v => length v
  | ColFloat v => length v
  | ColObject v => length v
  | ColDatetime v => length v
  end.

Definition count_none {A : Type} (v : list (option A)) : nat :=
  length (filter (fun o => match o with None => true | Some _ => false end) v).

Definition count_nan (v : list float64) : nat := length (filter isnan v).

(** [series.isnull().sum()] *)
Definition col_missing (c : column) : nat :=
  match c with
  | ColInt _ => 0
  | ColFloat v => count_nan v
  | ColObject v => count_none v
  | ColDatetime v => count_none v
  end.

(** Columns in order, each under its label.  [read_csv] renames repeated
    header names, so the labels of an ingested table are pairwise
    distinct. *)
Definition DataFrame : Type := list (string * column).

(** [df.columns] *)
Definition df_columns (df : DataFrame) : list string := map fst df.

(** [len(df)], [df.shape[0]] *)
Definition df_len (df : DataFrame) : nat :=
  match df with
  | [] => 0
  | (_, c) :: _ => col_len c
  end.

(** [df.shape[1]], [len(df.columns)] *)
Definition df_width (df : DataFrame) : nat := length df.

Definition has_column (df : DataFrame) (name : string) : bool :=
  existsb (String.eqb name) (df_columns df).

Fixpoint unique_labels (names : list string) : bool :=
  match names with
  | [] => true
  | n :: rest => negb (existsb (String.eqb n) rest) && unique_labels rest
  end.

(** [df[name]] *)
Fixpoint df_getitem (df : DataFrame) (name : string) : option column :=
  match df with
  | [] => None
  | (n, c) :: rest => if String.eqb n name then Some c else df_getitem rest name
  end.

(** [df[name] = c]: replaces the column of that label in place, or appends a
    new last column. *)
Fixpoint df_setitem (df : DataFrame) (name : string) (c : column) : DataFrame :=
  match df with
  | [] => [(name, c)]
  | (n, c0) :: rest =>
      if String.eqb n name then (n, c) :: rest
      else (n, c0) :: df_setitem rest name c
  end.

(** [df[names] = cols], for as many columns as labels: pandas assigns the
    columns one label at a time. *)
Definition df_setitem_many (df : DataFrame) (names : list string)
    (cols : list column) : DataFrame :=
  fold_left (fun d nc => df_setitem d (fst nc) (snd nc)) (combine names cols) df.

(** [df.select_dtypes(include=...)] *)
Definition select_dtypes (include : dtype -> bool) (df : DataFrame) : DataFrame :=
  filter (fun nc => include (col_dtype (snd nc))) df.

(** The cells of a numeric column as float64, as an estimator reads them. *)
Definition float_cells (c : column) : list float64 :=
  match c with
  | ColInt v => map float_of_int v
  | ColFloat v => v
  | _ => []
  end.

(** The numeric sub-frame as the float64 matrix an estimator is given, one
    list per column. *)
Definition numeric_matrix (df : DataFrame) : list (list float64) :=
  map (fun nc => float_cells (snd nc)) (select_dtypes DNumber df).

(* ===================================================================== *)
(** * Records exchanged between the stages *)
(* ===================================================================== *)

(** A value of a [describe()] table: a number or text. *)
Inductive pyval : Type :=
| PyNum (x : float64)
| PyStr (s : string).

Definition stats_table : Type := list (string * list (string * pyval)).

Record Summary : Type := mkSummary {
  total_rows : nat;
  total_columns : nat;
  column_types : list (string * dtype);
  missing_values : list (string * nat);
  numeric_summary : stats_table
}.

Record ClusterResult : Type := mkClusterResult {
  cluster_centers : list (list float64);
  inertia : float64
}.

(** What an estimator's [fit] leaves behind: [labels_], [cluster_centers_],
    [inertia_]. *)
Record KMeansFit : Type := mkKMeansFit {
  km_labels : list nat;
  km_centers : list (list float64);
  km_inertia : float64
}.

(* ===================================================================== *)
(** * Effects *)
(* ===================================================================== *)

(** A fragment of formatted text; values whose [repr] is not modelled are
    kept as values. *)
Inductive piece : Type :=
| PText (s : string)
| PNat (n : nat)
| PDtype (t : dtype)
| PVal (v : pyval)
| PCenters (c : list (list float64))
| PNum (x : float64).

Inductive event : Type :=
| EvPrint (msg : string)
| EvHttpGet (url : string)
| EvChat (attempt : nat) (summary : Summary) (results : ClusterResult)
| EvSleep (seconds : Z)
| EvMakedirs (path : string)
| EvOpen (path : string)
| EvWrite (chunk : list piece)
| EvClose.

Definition is_chat (e : event) : bool :=
  match e with EvChat _ _ _ => true | _ => false end.

Definition is_sleep (e : event) : bool :=
  match e with EvSleep _ => true | _ => false end.

Definition is_write (e : event) : bool :=
  match e with EvWrite _ => true | _ => false end.

(** Number of requests sent to the text-generation service so far. *)
Definition chat_calls (tr : list event) : nat := length (filter is_chat tr).

Definition write_calls (tr : list event) : nat := length (filter is_write tr).

Definition sleeps (tr : list event) : list event := filter is_sleep tr.

(** Everything outside the program. *)
Record World : Type := mkWorld {
  (** [requests.get(proxy_url)]: the status code, or the exception *)
  proxy_get : result nat;
  (** [open(path, 'rb').read()] *)
  read_bytes : string -> result (list ascii);
  (** [chardet.detect(raw)['encoding']] *)
  chardet_encoding : list ascii -> option string;
  (** [pd.read_csv(path, encoding=..., on_bad_lines='skip')] *)
  read_csv : string -> string -> result DataFrame;
  (** [os.getenv] *)
  getenv : string -> option string;
  (** [pd.to_datetime(..., errors='coerce')] on one text cell *)
  to_datetime_text : string -> option Z;
  (** the same on one float that is not NaN, and on one integer *)
  to_datetime_number : float64 -> option Z;
  to_datetime_integer : Z -> option Z;
  (** the statistics of [df.describe().to_dict()] *)
  describe_stats : DataFrame -> stats_table;
  (** the arithmetic of [StandardScaler().fit_transform] *)
  scaler_values : list (list float64) -> list (list float64);
  (** [KMeans(n_clusters, random_state=42).fit] on a matrix with at least
      [n_clusters] rows *)
  kmeans_fit : nat -> list (list float64) -> result KMeansFit;
  (** [openai.ChatCompletion.create(...)] followed by the extraction of
      [response['choices'][0]['message']['content']], as the outcome of the
      request number [n] (from 0) *)
  chat_completion : nat -> Summary -> ClusterResult -> result string;
  (** [os.makedirs(path, exist_ok=True)] *)
  makedirs : string -> option exn;
  (** [open(path, "w")] *)
  open_write : string -> option exn;
  (** the outcome of the [f.write] number [n] (from 0) of a report *)
  write_error : nat -> option exn;
  (** closing the file when the [with] block is left *)
  close_error : option exn
}.

(** The instance. *)
Record Self : Type := mkSelf {
  dataset_path : string;
  encoding : string;
  df : DataFrame;
  api_token : string
}.

Record State : Type := mkState {
  self : Self;
  trace : list event
}.

(** A computation: its outcome and the state it leaves, also when it
    raises. *)
Definition M (A : Type) : Type := State -> result A * State.

Definition ret {A : Type} (x : A) : M A := fun st => (inr x, st).

Definition bind {A B : Type} (c : M A) (k : A -> M B) : M B :=
  fun st =>
    match c st with
    | (inr x, st') => k x st'
    | (inl e, st') => (inl e, st')
    end.

Definition raise {A : Type} (e : exn) : M A := fun st => (inl e, st).

(** [try: c  except Exception as e: h e] *)
Definition try_except {A : Type} (c : M A) (h : exn -> M A) : M A :=
  fun st =>
    match c st with
    | (inr x, st') => (inr x, st')
    | (inl e, st') => h e st'
    end.

Definition lift {A : Type} (r : result A) : M A := fun st => (r, st).

Definition emit (e : event) : M unit :=
  fun st => (inr tt, mkState (self st) (trace st ++ [e])).

Definition print (msg : string) : M unit := emit (EvPrint msg).

Definition get_self : M Self := fun st => (inr (self st), st).

Definition get_trace : M (list event) := fun st => (inr (trace st), st).

Definition set_df (d : DataFrame) : M unit :=
  fun st =>
    let s := self st in
    (inr tt, mkState (mkSelf (dataset_path s) (encoding s) d (api_token s)) (trace st)).

Declare Scope py_scope.
Delimit Scope py_scope with py.
Notation "x <- c ;; k" := (bind c (fun x => k))
  (at level 61, c at next level, right associativity) : py_scope.
Notation "c ;;; k" := (bind c (fun _ => k))
  (at level 61, right associativity) : py_scope.
Local Open Scope py_scope.

(* ===================================================================== *)
(** * Library entry points *)
(* ===================================================================== *)

(** [pd.Series.fillna(fill)] on an object column. *)
Definition fillna (fill : string) (c : column) : column :=
  match c with
  | ColObject v =>
      ColObject (map (fun o => match o with Some s => Some s | None => Some fill end) v)
  | _ => c
  end.

(** The observed values of a float column: those that are not NaN. *)
Definition observed (v : list float64) : list float64 :=
  filter (fun x => negb (isnan x)) v.

Fixpoint insert_sorted (x : float64) (l : list float64) : list float64 :=
  match l with
  | [] => [x]
  | y :: rest => if f_leb x y then x :: l else y :: insert_sorted x rest
  end.

Definition sort_floats (l : list float64) : list float64 :=
  fold_right insert_sorted [] l.

(** The median of a column as [SimpleImputer] takes it, [np.ma.median] along
    axis 0 of the masked matrix: the observed values sorted, the low and the
    high middle values (one and the same value when the count is odd) added
    and the sum divided by 2, in float64; nothing when no value is
    observed.  The sum can overflow to an infinity.  (Values that compare
    equal, such as the two zeros, are kept here in the order in which
    insertion leaves them.) *)
Definition masked_median (v : list float64) : option float64 :=
  let s := sort_floats (observed v) in
  let n := length s in
  match s with
  | [] => None
  | _ :: _ =>
      let low := nth (if Nat.even n then n / 2 - 1 else n / 2) s nan in
      let high := nth (n / 2) s nan in
      Some (f_div (f_add low high) f_two)
  end.

(** One column through [SimpleImputer(strategy='median')]: the NaN cells
    receive the median, the other cells stay; a column with no observed
    value is dropped from the output. *)
Definition impute_column (v : list float64) : option (list float64) :=
  match masked_median v with
  | None => None
  | Some m => Some (map (fun x => if isnan x then m else x) v)
  end.

Fixpoint filter_map {A B : Type} (f : A -> option B) (l : list A) : list B :=
  match l with
  | [] => []
  | x :: rest =>
      match f x with
      | Some y => y :: filter_map f rest
      | None => filter_map f rest
      end
  end.

(** No cell is an infinity. *)
Definition all_finite (X : list (list float64)) : bool :=
  forallb (fun col => forallb (fun x => negb (isinf x)) col) X.

(** The error of scikit-learn's validation on an infinite value. *)
Definition infinity_error : exn :=
  ValueError "Input X contains infinity or a value too large for dtype('float64').".

(** scikit-learn's input validation ([check_array] with NaN allowed, as the
    imputer and the scaler call it): an estimator refuses with a
    [ValueError] a matrix with no feature, with an infinite value, or with
    no sample. *)
Definition check_array (X : list (list float64)) (n_samples : nat) : result unit :=
  if Nat.eqb (length X) 0
  then inl (ValueError "at least one array or dtype is required")
  else if negb (all_finite X)
  then inl infinity_error
  else if Nat.eqb n_samples 0
  then inl (ValueError "Found array with 0 sample(s) while a minimum of 1 is required")
  else inr tt.

(** [SimpleImputer(strategy='median').fit_transform(X)]: a float64 matrix. *)
Definition SimpleImputer_fit_transform (X : list (list float64))
    (n_samples : nat) : result (list (list float64)) :=
  match check_array X n_samples with
  | inl e => inl e
  | inr _ => inr (filter_map impute_column X)
  end.

(** A column of the imputer's output put back into the frame: float64. *)
Definition numeric_column (v : list float64) : column := ColFloat v.

(** The cell of a cluster label. *)
Definition label_cell (l : nat) : Z := Z.of_nat l.

(** [wait_exponential(multiplier, min, max)] of tenacity, for the attempt
    that has just failed. *)
Definition wait_exponential (multiplier wmin wmax : Z) (attempt_number : nat) : Z :=
  let result := (multiplier * 2 ^ (Z.of_nat attempt_number - 1))%Z in
  Z.max (Z.max 0 wmin) (Z.min result wmax).

(** [@retry(stop=stop_after_attempt(n), wait=wait)] of tenacity around a
    computation: run it again only after it RAISED, sleeping in between;
    when the attempt that raised is the last allowed one, raise
    [RetryError].  A computation that returns is never run again. *)
Fixpoint retry_from {A : Type} (fuel : nat) (stop_after : nat) (wait : nat -> Z)
    (attempt_number : nat) (body : M A) : M A :=
  match fuel with
  | O => raise RetryError
  | S fuel' =>
      try_except body
        (fun _ =>
           if Nat.leb stop_after attempt_number then raise RetryError
           else emit (EvSleep (wait attempt_number)) ;;;
                retry_from fuel' stop_after wait (S attempt_number) body)
  end.

Definition retry {A : Type} (stop_after : nat) (wait : nat -> Z) (body : M A) : M A :=
  retry_from (S stop_after) stop_after wait 1 body.

(* ===================================================================== *)
(** * class AutomatedAnalysis *)
(* ===================================================================== *)

Definition proxy_url : string := "https://aiproxy.sanand.workers.dev".

Definition fallback_narrative : string :=
  "An error occurred while generating the narrative.".

Definition T (s : string) : list piece := [PText s].

Section Methods.

Variable w : World.

(** The reachability probe run when the module is loaded. *)
Definition probe_proxy : M unit :=
  emit (EvHttpGet proxy_url) ;;;
  match proxy_get w with
  | inr code => print ("Proxy is reachable: " ++ str_of_nat code)
  | inl e => print ("Error reaching proxy: " ++ exn_msg e)
  end.

(** [result['encoding'] or 'utf-8'] *)
Definition detected_encoding (raw : list ascii) : string :=
  match chardet_encoding w raw with
  | Some (String c rest) => String c rest
  | _ => "utf-8"
  end.

Definition detect_encoding : M string :=
  s <- get_self ;;
  raw <- lift (read_bytes w (dataset_path s)) ;;
  ret (detected_encoding raw).

Definition load_dataset : M DataFrame :=
  s <- get_self ;;
  try_except
    (d <- lift (read_csv w (dataset_path s) (encoding s)) ;;
     print ("Dataset loaded successfully with " ++ str_of_nat (df_len d)
            ++ " rows and " ++ str_of_nat (df_width d) ++ " columns.") ;;;
     ret d)
    (fun e =>
       print ("Error loading dataset: " ++ exn_msg e) ;;;
       raise (ValueError ("Error loading dataset: " ++ exn_msg e))).

(** [pd.to_datetime(series, errors='coerce')] *)
Definition to_datetime (c : column) : column :=
  match c with
  | ColObject v =>
      ColDatetime (map (fun o => match o with
                                 | Some s => to_datetime_text w s
                                 | None => None
                                 end) v)
  | ColFloat v =>
      ColDatetime (map (fun x => if isnan x then None else to_datetime_number w x) v)
  | ColInt v => ColDatetime (map (to_datetime_integer w) v)
  | ColDatetime v => ColDatetime v
  end.

Definition preprocess_data : M unit :=
  s <- get_self ;;
  match df_getitem (df s) "date" with
  | Some c => set_df (df_setitem (df s) "date" (to_datetime c))
  | None => ret tt
  end ;;;
  s <- get_self ;;
  let categorical := select_dtypes (only DObject) (df s) in
  set_df (df_setitem_many (df s) (df_columns categorical)
            (map (fun nc => fillna "Unknown" (snd nc)) categorical)) ;;;
  s <- get_self ;;
  let numeric_cols := df_columns (select_dtypes DNumber (df s)) in
  imputed <- lift (SimpleImputer_fit_transform (numeric_matrix (df s)) (df_len (df s))) ;;
  if Nat.eqb (length imputed) (length numeric_cols)
  then set_df (df_setitem_many (df s) numeric_cols (map numeric_column imputed))
  else raise (ValueError "Columns must be same length as key").

Definition get_api_token : M string :=
  match getenv w "AIPROXY_TOKEN" with
  | Some (String c rest) => ret (String c rest)
  | _ => raise (EnvironmentError "AIPROXY_TOKEN environment variable is not set.")
  end.

(** [df.describe()]: refuses a frame without columns. *)
Definition describe (d : DataFrame) : result stats_table :=
  match d with
  | [] => inl (ValueError "Cannot describe a DataFrame without columns")
  | _ :: _ => inr (describe_stats w d)
  end.

(** The dictionaries are built anew from the frame: later changes of the
    frame do not reach a summary already returned. *)
Definition get_data_summary : M Summary :=
  s <- get_self ;;
  stats <- lift (describe (df s)) ;;
  ret {| total_rows := df_len (df s);
         total_columns := length (df_columns (df s));
         column_types := map (fun nc => (fst nc, col_dtype (snd nc))) (df s);
         missing_values := map (fun nc => (fst nc, col_missing (snd nc))) (df s);
         numeric_summary := stats |}.

(** The [try] block of [generate_narrative]: one request to the service and
    the extraction of the text of the response. *)
Definition request_narrative (summary : Summary) (results : ClusterResult)
    : M string :=
  tr <- get_trace ;;
  emit (EvChat (chat_calls tr) summary results) ;;;
  content <- lift (chat_completion w (chat_calls tr) summary results) ;;
  ret (strip content).

(** The body of [generate_narrative], under the decorator: the [try] block
    and its [except Exception] handler. *)
Definition generate_narrative_body (summary : Summary) (results : ClusterResult)
    : M string :=
  try_except
    (request_narrative summary results)
    (fun e =>
       print ("Error generating narrative: " ++ exn_msg e) ;;;
       ret fallback_narrative).

Definition generate_narrative (summary : Summary) (results : ClusterResult)
    : M string :=
  retry 3 (wait_exponential 1 4 10) (generate_narrative_body summary results).

End Methods.

(** ** The report *)

Definition column_type_lines (summary : Summary) : list (list piece) :=
  map (fun cd => [PText "- "; PText (fst cd); PText ": "; PDtype (snd cd); PText nl])
      (column_types summary).

Definition missing_value_lines (summary : Summary) : list (list piece) :=
  map (fun cm => [PText "- "; PText (fst cm); PText ": "; PNat (snd cm);
                  PText (" missing values" ++ nl)])
      (missing_values summary).

Definition numeric_summary_lines (summary : Summary) : list (list piece) :=
  flat_map
    (fun sv =>
       [PText (fst sv); PText (":" ++ nl)]
       :: map (fun cv => [PText "- "; PText (fst cv); PText ": "; PVal (snd cv); PText nl])
              (snd sv))
    (numeric_summary summary).

(** The arguments of the successive [f.write] calls. *)
Definition report_chunks (path : string) (summary : Summary)
    (results : ClusterResult) (narrative : string) : list (list piece) :=
  [ T ("# Automated Dataset Analysis" ++ nl ++ nl);
    T ("## Overview" ++ nl);
    [PText "This repository contains an analysis of the dataset **"; PText path;
     PText ("**. The following sections describe the preprocessing steps, the analysis conducted, clustering results, visualizations, and insights derived from the data." ++ nl ++ nl)];
    T ("## Dataset Summary" ++ nl);
    T ("The dataset consists of the following structure:" ++ nl ++ nl);
    T ("### Data Overview" ++ nl);
    [PText "- Total Rows: "; PNat (total_rows summary); PText nl];
    [PText "- Total Columns: "; PNat (total_columns summary); PText nl];
    T ("### Column Data Types" ++ nl);
    T ("```" ++ nl) ]
  ++ column_type_lines summary
  ++ [ T ("```" ++ nl);
       T ("### Missing Values" ++ nl);
       T ("```" ++ nl) ]
  ++ missing_value_lines summary
  ++ [ T ("```" ++ nl);
       T ("### Numeric Summary" ++ nl);
       T ("```" ++ nl) ]
  ++ numeric_summary_lines summary
  ++ [ T ("```" ++ nl);
       T (nl ++ "## Data Preprocessing" ++ nl);
       T ("Before performing any analysis, several preprocessing steps were conducted to clean and prepare the data:" ++ nl ++ nl);
       T ("- **Missing Values Handling**: Missing values in categorical columns were replaced with 'Unknown'. Numeric columns had missing values imputed using the median." ++ nl);
       T ("- **Date Parsing**: Any columns containing dates were parsed and converted into datetime objects." ++ nl);
       T ("- **Standardization**: Numerical data was standardized to ensure that features are on the same scale before applying clustering algorithms." ++ nl);
       T (nl ++ "## Clustering Analysis" ++ nl);
       T ("To uncover patterns in the data, we performed K-Means clustering on the dataset. The number of clusters was set to 3 based on prior understanding." ++ nl ++ nl);
       T ("### Clustering Results" ++ nl);
       [PText "- **Cluster Centers**: "; PCenters (cluster_centers results); PText nl];
       [PText "- **Inertia (Sum of Squared Distances)**: "; PNum (inertia results); PText nl];
       T ("### Cluster Distribution" ++ nl);
       T ("The following plot shows the distribution of data points across the clusters:" ++ nl ++ nl);
       T ("![Cluster Distribution](cluster_distribution.png)" ++ nl);
       T (nl ++ "## Visualizations" ++ nl);
       T ("The following visualizations help in understanding the data distribution and clustering results:" ++ nl ++ nl);
       T ("### Correlation Heatmap" ++ nl);
       T ("This heatmap displays the correlation between the numerical features in the dataset." ++ nl ++ nl);
       T ("![Correlation Heatmap](correlation_heatmap.png)" ++ nl);
       T (nl ++ "## Narrative Summary" ++ nl);
       T ("Below is the detailed narrative generated from the dataset analysis:" ++ nl ++ nl);
       T ("### Insights" ++ nl);
       [PText ("```" ++ nl); PText narrative; PText (nl ++ "```" ++ nl)];
       T (nl ++ "## Conclusion" ++ nl);
       T ("The analysis provides a deep understanding of the dataset. Key findings include:" ++ nl ++ nl);
       T ("- The dataset has several missing values, which were appropriately handled during preprocessing." ++ nl);
       T ("- Three clusters were identified through K-Means clustering, which offer a meaningful segmentation of the data." ++ nl);
       T ("- Visualizations helped in identifying relationships between variables and the distribution of data across clusters." ++ nl ++ nl);
       T "Future improvements could involve experimenting with other clustering techniques or incorporating additional data sources." ].

Section Reporting.

Variable w : World.

(** The [f.write] calls of a report from the call number [i] on: the first
    one that fails raises. *)
Fixpoint write_all (i : nat) (chunks : list (list piece)) : M unit :=
  match chunks with
  | [] => ret tt
  | chunk :: rest =>
      match write_error w i with
      | Some e => raise e
      | None => emit (EvWrite chunk) ;;; write_all (S i) rest
      end
  end.

(** [with open(path, "w") as f: body]: the file is closed when the block is
    left, normally or by an exception; an exception of the closing takes
    the place of the one that left the block. *)
Definition with_open (path : string) (body : M unit) : M unit :=
  match open_write w path with
  | Some e => raise e
  | None =>
      emit (EvOpen path) ;;;
      try_except body
        (fun e =>
           emit EvClose ;;;
           match close_error w with
           | Some e' => raise e'
           | None => raise e
           end) ;;;
      emit EvClose ;;;
      match close_error w with
      | Some e => raise e
      | None => ret tt
      end
  end.

Definition os_makedirs (path : string) : M unit :=
  match makedirs w path with
  | Some e => raise e
  | None => emit (EvMakedirs path)
  end.

(** [self.dataset_path.split('.')[0]] *)
Definition folder_name_of (path : string) : string :=
  hd EmptyString (split_on "." path).

Definition save_results (summary : Summary) (results : ClusterResult)
    (narrative : string) : M unit :=
  s <- get_self ;;
  let folder_name := folder_name_of (dataset_path s) in
  os_makedirs folder_name ;;;
  try_except
    (with_open (folder_name ++ "/README.md")
       (write_all 0 (report_chunks (dataset_path s) summary results narrative)) ;;;
     print "Analysis results saved successfully.")
    (fun e => print ("Error saving results: " ++ exn_msg e)).

(** [StandardScaler().fit_transform(X)] *)
Definition StandardScaler_fit_transform (X : list (list float64))
    (n_samples : nat) : result (list (list float64)) :=
  match check_array X n_samples with
  | inl e => inl e
  | inr _ => inr (scaler_values w X)
  end.

(** [KMeans(n_clusters=k, random_state=42).fit(X)]: the estimator refuses
    fewer samples than clusters with a [ValueError]. *)
Definition KMeans_fit (n_clusters : nat) (X : list (list float64))
    (n_samples : nat) : result KMeansFit :=
  if Nat.ltb n_samples n_clusters
  then inl (ValueError ("n_samples=" ++ str_of_nat n_samples
                        ++ " should be >= n_clusters=" ++ str_of_nat n_clusters
                        ++ "."))
  else kmeans_fit w n_clusters X.

Definition perform_clustering (n_clusters : nat) : M ClusterResult :=
  s <- get_self ;;
  scaled_data <- lift (StandardScaler_fit_transform (numeric_matrix (df s)) (df_len (df s))) ;;
  kmeans <- lift (KMeans_fit n_clusters scaled_data (df_len (df s))) ;;
  (if Nat.eqb (length (km_labels kmeans)) (df_len (df s))
   then set_df (df_setitem (df s) "cluster" (ColInt (map label_cell (km_labels kmeans))))
   else raise (ValueError "Length of values does not match length of index")) ;;;
  ret {| cluster_centers := km_centers kmeans; inertia := km_inertia kmeans |}.

Definition run_analysis : M unit :=
  summary <- get_data_summary w ;;
  clustering_results <- perform_clustering 3 ;;
  narrative <- generate_narrative w summary clustering_results ;;
  save_results summary clustering_results narrative.

Definition set_encoding (e : string) : M unit :=
  fun st =>
    let s := self st in
    (inr tt, mkState (mkSelf (dataset_path s) e (df s) (api_token s)) (trace st)).

Definition set_api_token (t : string) : M unit :=
  fun st =>
    let s := self st in
    (inr tt, mkState (mkSelf (dataset_path s) (encoding s) (df s) t) (trace st)).

(** [AutomatedAnalysis.__init__] *)
Definition init : M unit :=
  e <- detect_encoding w ;;
  set_encoding e ;;;
  d <- load_dataset w ;;
  set_df d ;;;
  preprocess_data w ;;;
  t <- get_api_token w ;;
  set_api_token t.

(** The instance when the constructor starts: only the path is set. *)
Definition fresh_instance (path : string) : State :=
  mkState (mkSelf path EmptyString [] EmptyString) [].

(** One run of the script on [path]. *)
Definition main (path : string) : result unit * State :=
  (probe_proxy w ;;; init ;;; run_analysis) (fresh_instance path).

End Reporting.

(* ===================================================================== *)
(** * The output folder as the specification words it *)
(* ===================================================================== *)

Fixpoint join_with (sep : string) (parts : list string) : string :=
  match parts with
  | [] => EmptyString
  | [p] => p
  | p :: rest => p ++ sep ++ join_with sep rest
  end.

(** The base name of a path: what follows its last [/]. *)
Definition spec_basename (path : string) : string :=
  last (split_on "/" path) EmptyString.

(** A file name with its extension stripped: what precedes its last [.],
    the whole name when it has none. *)
Definition spec_strip_extension (name : string) : string :=
  match split_on "." name with
  | [] | [_] => name
  | parts => join_with "." (removelast parts)
  end.

(** "a directory named after the input file's base name (extension
    stripped)" *)
Definition spec_folder_name (path : string) : string :=
  spec_strip_extension (spec_basename path).

(* ===================================================================== *)
(** * Sample tables and worlds *)
(* ===================================================================== *)

Definition sales_table : DataFrame :=
  [ ("date", ColObject [Some "2020-01-01"; Some "not a date"; None]);
    ("city", ColObject [Some "Pune"; None; Some "Oslo"]);
    ("sales", ColFloat [float_of_int 3; nan; float_of_int 1]) ].

Definition city_table : DataFrame :=
  [ ("city", ColObject [Some "Pune"; Some "Oslo"]) ].

(** What [read_csv] returns for a file that holds a header line only. *)
Definition header_only_table : DataFrame :=
  [ ("city", ColObject []); ("sales", ColObject []) ].

Definition sample_to_datetime_text (s : string) : option Z :=
  if String.eqb s "2020-01-01" then Some 1577836800%Z else None.

(** A clustering that puts every row in cluster 0. *)
Definition sample_kmeans (k : nat) (X : list (list float64)) : result KMeansFit :=
  inr {| km_labels := repeat 0%nat (length (hd [] X));
         km_centers := repeat (repeat f_zero (length X)) k;
         km_inertia := f_zero |}.

Definition sample_world (csv : result DataFrame)
    (chat : nat -> result string) (mkdir : string -> option exn)
    (wr : nat -> option exn) : World :=
  {| proxy_get := inr 200%nat;
     read_bytes := fun _ => inr [];
     chardet_encoding := fun _ => Some "ascii";
     read_csv := fun _ _ => csv;
     getenv := fun _ => Some "secret";
     to_datetime_text := sample_to_datetime_text;
     to_datetime_number := fun _ => None;
     to_datetime_integer := fun z => Some z;
     describe_stats := fun _ => [];
     scaler_values := fun X => X;
     kmeans_fit := sample_kmeans;
     chat_completion := fun n _ _ => chat n;
     makedirs := mkdir;
     open_write := fun _ => None;
     write_error := wr;
     close_error := None |}.

Definition service_down (n : nat) : result string :=
  inl (Exn "APIError" "HTTP 500").

Definition service_up (n : nat) : result string :=
  inr (" Three groups of cities. " ++ nl)%string.

(** Everything works. *)
Definition calm_world : World :=
  sample_world (inr sales_table) service_up (fun _ => None) (fun _ => None).

(** The text-generation service fails on every request. *)
Definition service_down_world : World :=
  sample_world (inr sales_table) service_down (fun _ => None) (fun _ => None).

(** The file holds a header and no row. *)
Definition header_only_world : World :=
  sample_world (inr header_only_table) service_up (fun _ => None) (fun _ => None).

(** The file holds one text column and no numeric one. *)
Definition text_only_world : World :=
  sample_world (inr city_table) service_up (fun _ => None) (fun _ => None).

(** The file cannot be parsed. *)
Definition unreadable_world : World :=
  sample_world (inl (Exn "EmptyDataError" "No columns to parse from file"))
    service_up (fun _ => None) (fun _ => None).

(** The disk fills up at the sixth write of the report. *)
Definition disk_full_world : World :=
  sample_world (inr sales_table) service_up (fun _ => None)
    (fun n => if Nat.eqb n 5 then Some (Exn "OSError" "No space left on device") else None).

(** [os.makedirs] refuses the empty path. *)
Definition strict_makedirs (path : string) : option exn :=
  match path with
  | EmptyString => Some (Exn "FileNotFoundError" "No such file or directory: ''")
  | String _ _ => None
  end.

Definition strict_fs_world : World :=
  sample_world (inr sales_table) service_up strict_makedirs (fun _ => None).

Definition instance_of (path : string) (d : DataFrame) : State :=
  mkState (mkSelf path "ascii" d "secret") [].

Definition sample_summary : Summary :=
  {| total_rows := 0; total_columns := 0; column_types := [];
     missing_values := []; numeric_summary := [] |}.

Definition sample_results : ClusterResult :=
  {| cluster_centers := []; inertia := f_zero |}.

(* ===================================================================== *)
(** * Column-wise reading of the preprocessing steps *)
(* ===================================================================== *)

(** The same function on every column, labels untouched. *)
Definition map_columns (f : column -> column) (d : DataFrame) : DataFrame :=
  map (fun nc => (fst nc, f (snd nc))) d.

(** The columns that satisfy [p] replaced by their image under [f]. *)
Definition update_where (p : column -> bool) (f : column -> column)
    (d : DataFrame) : DataFrame :=
  map (fun nc => if p (snd nc) then (fst nc, f (snd nc)) else nc) d.

(** Every column of label [k] replaced by [v]. *)
Definition replace_label (k : string) (v : column) (d : DataFrame) : DataFrame :=
  map (fun nc => if String.eqb (fst nc) k then (fst nc, v) else nc) d.

(** The frame overwritten by the columns of [upd], label by label. *)
Definition overwrite (upd d : DataFrame) : DataFrame :=
  map (fun nc => match df_getitem upd (fst nc) with
                 | Some c => (fst nc, c)
                 | None => nc
                 end) d.

Definition is_object (c : column) : bool := only DObject (col_dtype c).
Definition is_number (c : column) : bool := DNumber (col_dtype c).

(** A numeric column after imputation: a float64 column; a column with no
    observed value has no image. *)
Definition impute_or_keep (c : column) : column :=
  if is_number c
  then match impute_column (float_cells c) with
       | Some l => numeric_column l
       | None => c
       end
  else c.

(** The imputer keeps the column: it is not a numeric column without any
    observed value. *)
Definition col_imputable (c : column) : bool :=
  if is_number c
  then match impute_column (float_cells c) with Some _ => true | None => false end
  else true.

(** No cell of a numeric column is an infinity, once read as float64. *)
Definition column_finite (c : column) : bool :=
  forallb (fun x => negb (isinf x)) (float_cells c).





(** No numeric column is entirely missing. *)
Definition imputable (d : DataFrame) : bool :=
  forallb (fun nc => col_imputable (snd nc)) d.

(** The [date] column parsed, when there is one. *)
Definition convert_date (w : World) (d : DataFrame) : DataFrame :=
  match df_getitem d "date" with
  | Some c => df_setitem d "date" (to_datetime w c)
  | None => d
  end.

(** The table after the date and text steps. *)
Definition filled_table (w : World) (d : DataFrame) : DataFrame :=
  map_columns (fillna "Unknown") (convert_date w d).

(** The table after all three steps. *)
Definition clean_table (w : World) (d : DataFrame) : DataFrame :=
  map_columns impute_or_keep (filled_table w d).

Definition with_df (st : State) (d : DataFrame) : State :=
  mkState (mkSelf (dataset_path (self st)) (encoding (self st)) d
             (api_token (self st))) (trace st).

(** The first [f.write] that fails among [n], from the call number [i]. *)
Fixpoint first_write_error (w : World) (i n : nat) : option exn :=
  match n with
  | O => None
  | S n' =>
      match write_error w i with
      | Some e => Some e
      | None => first_write_error w (S i) n'
      end
  end.

(** The exception with which the file operations of a report end, if any:
    that of the opening; else that of the first write that fails, replaced
    by that of the closing when the closing fails too; else that of the
    closing. *)
Definition first_report_failure (w : World) (path : string) (n : nat) : option exn :=
  match open_write w path with
  | Some e => Some e
  | None =>
      match first_write_error w 0 n with
      | Some e =>
          match close_error w with
          | Some e' => Some e'
          | None => Some e
          end
      | None => close_error w
      end
  end.

Definition last_event (tr : list event) : option event :=
  match rev tr with
  | [] => None
  | e :: _ => Some e
  end.

Fixpoint opened_paths (tr : list event) : list string :=
  match tr with
  | [] => []
  | EvOpen p :: rest => p :: opened_paths rest
  | _ :: rest => opened_paths rest
  end.

Fixpoint created_dirs (tr : list event) : list string :=
  match tr with
  | [] => []
  | EvMakedirs p :: rest => p :: created_dirs rest
  | _ :: rest => created_dirs rest
  end.

(** Events of the Reporter: console and file system. *)
Definition is_report_event (e : event) : bool :=
  match e with
  | EvPrint _ | EvMakedirs _ | EvOpen _ | EvWrite _ | EvClose => true
  | _ => false
  end.

(** [st'] is [st] with the same instance and more events, all of them
    satisfying [p]. *)
Definition only_adds (p : event -> bool) (st st' : State) : Prop :=
  self st' = self st /\
  exists tr', trace st' = trace st ++ tr' /\ forallb p tr' = true.

Definition report_saved : string := "Analysis results saved successfully.".

(** Every column has as many cells as the frame has rows. *)
Definition rectangular (d : DataFrame) : bool :=
  forallb (fun nc => Nat.eqb (col_len (snd nc)) (df_len d)) d.

(** A frame as pandas keeps it: distinct labels, columns of one length. *)
Definition well_formed (d : DataFrame) : bool :=
  unique_labels (df_columns d) && rectangular d.

(** The number of [f.write] calls that succeed, from the call number [i]
    on, out of [n]: the writes before the first failure. *)
Fixpoint writes_done (w : World) (i n : nat) : nat :=
  match n with
  | O => O
  | S n' =>
      match write_error w i with
      | Some _ => O
      | None => S (writes_done w (S i) n')
      end
  end.

(** The file events of one report: nothing when the file cannot be opened;
    otherwise the opening, the writes that succeed, the closing. *)
Definition report_file_events (w : World) (path : string)
    (chunks : list (list piece)) : list event :=
  match open_write w path with
  | Some _ => []
  | None =>
      (EvOpen path :: map EvWrite (firstn (writes_done w 0 (length chunks)) chunks))
      ++ [EvClose]
  end.

Fixpoint contains_char (c : ascii) (s : string) : bool :=
  match s with
  | EmptyString => false
  | String c0 rest => Ascii.eqb c0 c || contains_char c rest
  end.

(** The first character of [s] is a whitespace character. *)
Definition starts_with_space (s : string) : bool :=
  match s with
  | EmptyString => false
  | String a r1 =>
      is_space a
      || match r1 with
         | EmptyString => false
         | String b r2 =>
             is_space2 a b
             || match r2 with
                | EmptyString => false
                | String c _ => is_space3 a b c
                end
         end
  end.

(** The same for a string read backwards. *)
Definition starts_with_space_backwards (s : string) : bool :=
  match s with
  | EmptyString => false
  | String a r1 =>
      is_space a
      || match r1 with
         | EmptyString => false
         | String b r2 =>
             is_space2 b a
             || match r2 with
                | EmptyString => false
                | String c _ => is_space3 c b a
                end
         end
  end.

(** The last character of [s] is a whitespace character. *)
Definition ends_with_space (s : string) : bool :=
  starts_with_space_backwards (string_rev s).

(** [s] is made of whitespace characters only. *)
Fixpoint all_space (s : string) : bool :=
  match s with
  | EmptyString => true
  | String a r1 =>
      if is_space a then all_space r1
      else match r1 with
           | EmptyString => false
           | String b r2 =>
               if is_space2 a b then all_space r2
               else match r2 with
                    | EmptyString => false
                    | String c r3 => is_space3 a b c && all_space r3
                    end
           end
  end.

(** The same for a string read backwards. *)
Fixpoint all_space_backwards (s : string) : bool :=
  match s with
  | EmptyString => true
  | String a r1 =>
      if is_space a then all_space_backwards r1
      else match r1 with
           | EmptyString => false
           | String b r2 =>
               if is_space2 b a then all_space_backwards r2
               else match r2 with
                    | EmptyString => false
                    | String c r3 => is_space3 c b a && all_space_backwards r3
                    end
           end
  end.

(** The line that the probe prints. *)
Definition probe_message (w : World) : string :=
  match proxy_get w with
  | inr code => "Proxy is reachable: " ++ str_of_nat code
  | inl e => "Error reaching proxy: " ++ exn_msg e
  end.

(** One float column whose two observed values add up to more than the
    largest float64. *)
Definition overflow_table : DataFrame :=
  [ ("x", ColFloat [f_huge; f_huge; nan]) ].


(** A table with an integer column that float64 cannot hold exactly. *)
Definition big_int_table : DataFrame :=
  [ ("id", ColInt [9007199254740993%Z; 2%Z; 5%Z]);
    ("x", ColFloat [f_tenth; f_fifth; nan]) ].

(** [st'] has the events of [st] and maybe more after them. *)
Definition trace_grows (st st' : State) : Prop :=
  exists tr', trace st' = trace st ++ tr'.

(** The state in which the constructor starts, after the probe that printed
    [msg]. *)
Definition after_probe (path msg : string) : State :=
  mkState (self (fresh_instance path)) [EvHttpGet proxy_url; EvPrint msg].

(** A world in which the proxy cannot be reached. *)
Definition proxy_down_world : World :=
  {| proxy_get := inl (Exn "ConnectionError" "Connection refused");
     read_bytes := fun _ => inr [];
     chardet_encoding := fun _ => Some "ascii";
     read_csv := fun _ _ => inr sales_table;
     getenv := fun _ => Some "secret";
     to_datetime_text := sample_to_datetime_text;
     to_datetime_number := fun _ => None;
     to_datetime_integer := fun z => Some z;
     describe_stats := fun _ => [];
     scaler_values := fun X => X;
     kmeans_fit := sample_kmeans;
     chat_completion := fun n _ _ => service_up n;
     makedirs := fun _ => None;
     open_write := fun _ => None;
     write_error := fun _ => None;
     close_error := None |}.

(** A world without the access token. *)
Definition no_token_world : World :=
  {| proxy_get := inr 200%nat;
     read_bytes := fun _ => inr [];
     chardet_encoding := fun _ => Some "ascii";
     read_csv := fun _ _ => inr sales_table;
     getenv := fun _ => None;
     to_datetime_text := sample_to_datetime_text;
     to_datetime_number := fun _ => None;
     to_datetime_integer := fun z => Some z;
     describe_stats := fun _ => [];
     scaler_values := fun X => X;
     kmeans_fit := sample_kmeans;
     chat_completion := fun n _ _ => service_up n;
     makedirs := fun _ => None;
     open_write := fun _ => None;
     write_error := fun _ => None;
     close_error := None |}.

(* ===================================================================== *)
(** * Frames: assignment by label *)
(* ===================================================================== *)

Lemma existsb_eqb_In (k : string) (l : list string) :
  existsb (String.eqb k) l = true <-> In k l.
Proof.
  rewrite existsb_exists. split.
  - intros [x [Hin Heq]]. apply String.eqb_eq in Heq. now subst.
  - intros Hin. exists k. split; [assumption | apply String.eqb_refl].
Qed.

Lemma unique_labels_NoDup (l : list string) :
  unique_labels l = true <-> NoDup l.
Proof.
  induction l as [|n rest IH]; simpl.
  - split; [constructor | reflexivity].
  - rewrite andb_true_iff, negb_true_iff, IH. split.
    + intros [Hn Hrest]. constructor; [|assumption].
      intros Hin. apply existsb_eqb_In in Hin. congruence.
    + intros Hnd. inversion Hnd as [|? ? Hn Hrest]; subst. split; [|assumption].
      destruct (existsb (String.eqb n) rest) eqn:E; [|reflexivity].
      apply existsb_eqb_In in E. contradiction.
Qed.

Lemma df_getitem_absent (d : DataFrame) (k : string) :
  ~ In k (df_columns d) -> df_getitem d k = None.
Proof.
  induction d as [|[n c] rest IH]; simpl; intros Hk; [reflexivity|].
  destruct (String.eqb_spec n k) as [->|Hne].
  - exfalso. apply Hk. now left.
  - apply IH. intros Hin. apply Hk. now right.
Qed.

Lemma df_getitem_present (d : DataFrame) (k : string) (c : column) :
  df_getitem d k = Some c -> In k (df_columns d).
Proof.
  induction d as [|[n c0] rest IH]; simpl; [discriminate|].
  destruct (String.eqb_spec n k) as [->|Hne]; intros H.
  - now left.
  - right. now apply IH.
Qed.

Lemma replace_label_absent (k : string) (v : column) (d : DataFrame) :
  ~ In k (df_columns d) -> replace_label k v d = d.
Proof.
  induction d as [|[n c] rest IH]; simpl; intros Hk; [reflexivity|].
  destruct (String.eqb_spec n k) as [->|Hne].
  - exfalso. apply Hk. now left.
  - f_equal. apply IH. intros Hin. apply Hk. now right.
Qed.

Lemma df_setitem_replace (d : DataFrame) (k : string) (v : column) :
  NoDup (df_columns d) -> In k (df_columns d) ->
  df_setitem d k v = replace_label k v d.
Proof.
  induction d as [|[n c] rest IH]; simpl; intros Hnd Hin; [contradiction|].
  inversion Hnd as [|? ? Hn Hrest]; subst.
  destruct (String.eqb_spec n k) as [->|Hne].
  - f_equal. symmetry. now apply replace_label_absent.
  - f_equal. apply IH; [assumption|]. destruct Hin as [Heq|Hin]; [congruence|assumption].
Qed.

Lemma replace_label_columns (k : string) (v : column) (d : DataFrame) :
  df_columns (replace_label k v d) = df_columns d.
Proof.
  unfold replace_label, df_columns. rewrite map_map. apply map_ext.
  intros [n c]; simpl. now destruct (String.eqb n k).
Qed.

Lemma overwrite_step (k : string) (v : column) (upd d : DataFrame) :
  ~ In k (df_columns upd) ->
  overwrite upd (replace_label k v d) = overwrite ((k, v) :: upd) d.
Proof.
  intros Hk. unfold overwrite, replace_label. rewrite map_map. apply map_ext.
  intros [n c]; simpl.
  destruct (String.eqb_spec n k) as [->|Hne]; simpl.
  - rewrite String.eqb_refl. now rewrite (df_getitem_absent upd k Hk).
  - destruct (String.eqb_spec k n) as [Heq|_]; [congruence|reflexivity].
Qed.

(** Assigning a list of columns under distinct labels of the frame
    overwrites the columns of those labels wherever they stand. *)
Lemma fold_setitem_overwrite (upd d : DataFrame) :
  NoDup (df_columns d) -> NoDup (df_columns upd) ->
  (forall k, In k (df_columns upd) -> In k (df_columns d)) ->
  fold_left (fun d0 nc => df_setitem d0 (fst nc) (snd nc)) upd d = overwrite upd d.
Proof.
  revert d. induction upd as [|[k v] upd IH]; simpl; intros d Hd Hu Hsub.
  - symmetry. unfold overwrite.
    rewrite (map_ext _ (fun nc => nc)); [apply map_id | reflexivity].
  - inversion Hu as [|? ? Hk Hu']; subst.
    rewrite df_setitem_replace by auto.
    rewrite IH.
    + now apply overwrite_step.
    + now rewrite replace_label_columns.
    + assumption.
    + intros k0 Hin. rewrite replace_label_columns. auto.
Qed.

Lemma filter_columns_incl (q : string * column -> bool) (d : DataFrame) (k : string) :
  In k (df_columns (filter q d)) -> In k (df_columns d).
Proof.
  unfold df_columns. rewrite !in_map_iff.
  intros [x [Hx Hin]]. exists x. split; [assumption|].
  apply filter_In in Hin. tauto.
Qed.

Lemma filter_columns_NoDup (q : string * column -> bool) (d : DataFrame) :
  NoDup (df_columns d) -> NoDup (df_columns (filter q d)).
Proof.
  induction d as [|[n c] rest IH]; simpl; intros Hnd; [constructor|].
  inversion Hnd as [|? ? Hn Hrest]; subst.
  destruct (q (n, c)); simpl; [|auto].
  constructor; [|auto].
  intros Hin. apply Hn. now apply filter_columns_incl in Hin.
Qed.

Lemma combine_labels {B : Type} (g : string * column -> B) (l : DataFrame) :
  combine (map fst l) (map g l) = map (fun x => (fst x, g x)) l.
Proof.
  induction l as [|x l IH]; simpl; [reflexivity | now rewrite IH].
Qed.

(** Looking a label of the frame up among the selected, updated columns. *)
Lemma df_getitem_selected (p : column -> bool) (f : column -> column) (d : DataFrame) :
  NoDup (df_columns d) ->
  forall n c, In (n, c) d ->
  df_getitem (map (fun x => (fst x, f (snd x))) (filter (fun nc => p (snd nc)) d)) n
  = if p c then Some (f c) else None.
Proof.
  induction d as [|[n0 c0] rest IH]; simpl; intros Hnd n c Hin; [contradiction|].
  inversion Hnd as [|? ? Hn Hrest]; subst.
  destruct Hin as [Heq|Hin].
  - inversion Heq; subst. destruct (p c) eqn:Hp; simpl.
    + now rewrite String.eqb_refl.
    + apply df_getitem_absent. intros Hin. apply Hn.
      unfold df_columns in Hin. rewrite map_map in Hin. simpl in Hin.
      now apply (filter_columns_incl (fun nc => p (snd nc))).
  - assert (Hne : n0 <> n).
    { intros ->. apply Hn. unfold df_columns. apply in_map_iff. now exists (n, c). }
    destruct (p c0); simpl.
    + destruct (String.eqb_spec n0 n); [contradiction|]. now apply IH.
    + now apply IH.
Qed.

(** [df[cols] = f(df[cols])] for the columns selected by dtype and distinct
    labels: the selected columns change in place. *)
Lemma df_setitem_many_update_where (p : column -> bool) (f : column -> column)
    (d : DataFrame) :
  NoDup (df_columns d) ->
  df_setitem_many d (df_columns (filter (fun nc => p (snd nc)) d))
    (map (fun nc => f (snd nc)) (filter (fun nc => p (snd nc)) d))
  = update_where p f d.
Proof.
  intros Hnd. unfold df_setitem_many, df_columns at 1.
  rewrite combine_labels.
  rewrite fold_setitem_overwrite.
  - unfold overwrite, update_where. apply map_ext_in. intros [n c] Hin. simpl.
    rewrite (df_getitem_selected p f d Hnd n c Hin). now destruct (p c).
  - assumption.
  - unfold df_columns. rewrite map_map. simpl.
    now apply (filter_columns_NoDup (fun nc => p (snd nc))).
  - intros k Hin. unfold df_columns in Hin. rewrite map_map in Hin. simpl in Hin.
    now apply (filter_columns_incl (fun nc => p (snd nc))).
Qed.

Lemma update_where_fillna (d : DataFrame) :
  update_where is_object (fillna "Unknown") d = map_columns (fillna "Unknown") d.
Proof.
  unfold update_where, map_columns. apply map_ext. intros [n c]; simpl.
  now destruct c.
Qed.

Lemma map_columns_labels (f : column -> column) (d : DataFrame) :
  df_columns (map_columns f d) = df_columns d.
Proof.
  unfold map_columns, df_columns. rewrite map_map. reflexivity.
Qed.

Lemma filter_map_length {A B : Type} (f : A -> option B) (l : list A) :
  length (filter_map f l) <= length l.
Proof.
  induction l as [|x l IH]; simpl; [lia|]. destruct (f x); simpl; lia.
Qed.

(** The imputer returns as many columns as it was given exactly when no
    numeric column is entirely missing, and then each numeric column has
    its imputed image. *)
Lemma imputer_keeps_all_columns (d : DataFrame) :
  Nat.eqb (length (filter_map impute_column (numeric_matrix d)))
          (length (df_columns (select_dtypes DNumber d)))
  = imputable d.
Proof.
  unfold numeric_matrix, select_dtypes, df_columns, imputable. rewrite length_map.
  induction d as [|[n c] rest IH]; [reflexivity|].
  cbn [filter map forallb snd]. unfold col_imputable at 1, is_number.
  destruct (DNumber (col_dtype c)); cbn [map filter_map length andb snd]; [|exact IH].
  destruct (impute_column (float_cells c)) eqn:E; cbn [length andb Nat.eqb]; [exact IH|].
  apply Nat.eqb_neq.
  pose proof (filter_map_length impute_column
    (map (fun nc => float_cells (snd nc))
       (filter (fun nc => DNumber (col_dtype (snd nc))) rest))) as Hle.
  rewrite length_map in Hle. lia.
Qed.

Lemma imputed_columns (d : DataFrame) :
  imputable d = true ->
  map numeric_column (filter_map impute_column (numeric_matrix d))
  = map (fun nc => impute_or_keep (snd nc)) (select_dtypes DNumber d).
Proof.
  unfold numeric_matrix, select_dtypes, imputable.
  induction d as [|[n c] rest IH]; intros H; [reflexivity|].
  cbn [forallb snd] in H. apply andb_true_iff in H. destruct H as [Hc Hrest].
  cbn [filter map snd]. unfold col_imputable, is_number in Hc.
  destruct (DNumber (col_dtype c)) eqn:Hnum; cbn [map filter_map snd]; [|auto].
  destruct (impute_column (float_cells c)) eqn:E; [|discriminate].
  cbn [map]. unfold impute_or_keep at 1, is_number. rewrite Hnum, E.
  now rewrite IH.
Qed.

Lemma update_where_impute (d : DataFrame) :
  update_where is_number impute_or_keep d = map_columns impute_or_keep d.
Proof.
  unfold update_where, map_columns. apply map_ext. intros [n c]; simpl.
  unfold impute_or_keep. now destruct (is_number c).
Qed.

Lemma df_setitem_columns_present (d : DataFrame) (k : string) (v : column) :
  In k (df_columns d) -> df_columns (df_setitem d k v) = df_columns d.
Proof.
  induction d as [|[n c] rest IH]; simpl; intros Hin; [contradiction|].
  destruct (String.eqb_spec n k) as [->|Hne]; simpl; [reflexivity|].
  f_equal. apply IH. destruct Hin; [congruence|assumption].
Qed.

Lemma df_setitem_columns_absent (d : DataFrame) (k : string) (v : column) :
  ~ In k (df_columns d) -> df_setitem d k v = d ++ [(k, v)].
Proof.
  induction d as [|[n c] rest IH]; simpl; intros Hk; [reflexivity|].
  destruct (String.eqb_spec n k) as [->|Hne].
  - exfalso. apply Hk. now left.
  - f_equal. apply IH. intros Hin. apply Hk. now right.
Qed.

Lemma convert_date_columns (w : World) (d : DataFrame) :
  df_columns (convert_date w d) = df_columns d.
Proof.
  unfold convert_date. destruct (df_getitem d "date") eqn:E; [|reflexivity].
  apply df_setitem_columns_present. now apply df_getitem_present in E.
Qed.

Lemma filled_table_columns (w : World) (d : DataFrame) :
  df_columns (filled_table w d) = df_columns d.
Proof.
  unfold filled_table. now rewrite map_columns_labels, convert_date_columns.
Qed.

Lemma clean_table_columns (w : World) (d : DataFrame) :
  df_columns (clean_table w d) = df_columns d.
Proof.
  unfold clean_table. now rewrite map_columns_labels, filled_table_columns.
Qed.

(** ** What [preprocess_data] computes

    On a frame with distinct labels the three assignments act column by
    column.  A failure of the imputer leaves the date and text steps
    done. *)
Lemma preprocess_data_spec (w : World) (st : State) :
  NoDup (df_columns (df (self st))) ->
  preprocess_data w st =
  let d2 := filled_table w (df (self st)) in
  match check_array (numeric_matrix d2) (df_len d2) with
  | inl e => (inl e, with_df st d2)
  | inr _ =>
      if imputable d2
      then (inr tt, with_df st (clean_table w (df (self st))))
      else (inl (ValueError "Columns must be same length as key"), with_df st d2)
  end.
Proof.
  destruct st as [[p e d t] tr]. simpl. intros Hnd.
  assert (H1 : NoDup (df_columns (convert_date w d)))
    by now rewrite convert_date_columns.
  assert (H2 : NoDup (df_columns (filled_table w d)))
    by now rewrite filled_table_columns.
  assert (Hfill : df_setitem_many (convert_date w d)
                    (df_columns (select_dtypes (only DObject) (convert_date w d)))
                    (map (fun nc => fillna "Unknown" (snd nc))
                       (select_dtypes (only DObject) (convert_date w d)))
                  = filled_table w d).
  { etransitivity;
      [exact (df_setitem_many_update_where is_object (fillna "Unknown") _ H1)
      |apply update_where_fillna]. }
  assert (Hstep1 :
    match df_getitem d "date" with
    | Some c => set_df (df_setitem d "date" (to_datetime w c))
    | None => ret tt
    end (mkState (mkSelf p e d t) tr)
    = (inr tt, mkState (mkSelf p e (convert_date w d) t) tr)).
  { unfold convert_date. destruct (df_getitem d "date"); reflexivity. }
  unfold preprocess_data, bind at 1, get_self at 1. simpl.
  unfold bind at 1. rewrite Hstep1.
  unfold bind, get_self, set_df, lift, with_df; simpl.
  rewrite Hfill.
  unfold SimpleImputer_fit_transform.
  destruct (check_array (numeric_matrix (filled_table w d)) (df_len (filled_table w d)));
    [reflexivity|].
  rewrite imputer_keeps_all_columns.
  destruct (imputable (filled_table w d)) eqn:Himp; [|reflexivity].
  simpl. rewrite imputed_columns by assumption.
  do 3 f_equal.
  etransitivity;
    [exact (df_setitem_many_update_where is_number impute_or_keep _ H2)
    |apply update_where_impute].
Qed.

(* ===================================================================== *)
(** * Float64: where a NaN can come from *)
(* ===================================================================== *)

Lemma shr_1_nonneg (mrs : shr_record) :
  (0 <= shr_m mrs)%Z -> (0 <= shr_m (shr_1 mrs))%Z.
Proof.
  destruct mrs as [m r s]. simpl. intros H.
  destruct m as [|[p|p|]|p]; simpl; lia.
Qed.

Lemma iter_shr_1_nonneg (p : positive) :
  forall mrs, (0 <= shr_m mrs)%Z -> (0 <= shr_m (iter_pos shr_1 p mrs))%Z.
Proof.
  induction p as [p IH|p IH|]; intros mrs H; simpl.
  - apply IH, IH, shr_1_nonneg, H.
  - apply IH, IH, H.
  - apply shr_1_nonneg, H.
Qed.

Lemma shr_fexp_nonneg (prec emax m e : Z) (l : location) :
  (0 <= m)%Z -> (0 <= shr_m (fst (shr_fexp prec emax m e l)))%Z.
Proof.
  intros H. unfold shr_fexp, shr.
  assert (H0 : (0 <= shr_m (shr_record_of_loc m l))%Z).
  { destruct l as [|[| |]]; simpl; exact H. }
  destruct (_ - e)%Z; simpl; try exact H0. now apply iter_shr_1_nonneg.
Qed.

Lemma round_nearest_even_nonneg (m : Z) (l : location) :
  (0 <= m)%Z -> (0 <= round_nearest_even m l)%Z.
Proof.
  intros H. destruct l as [|[| |]]; simpl; try lia. destruct (Z.even m); lia.
Qed.

(** Rounding a magnitude gives a zero, a finite number or an infinity. *)
Lemma binary_round_aux_not_nan (prec emax : Z) (sx : bool) (m e : Z) (l : location) :
  (0 <= m)%Z -> isnan (binary_round_aux prec emax sx m e l) = false.
Proof.
  intros H. unfold binary_round_aux.
  pose proof (shr_fexp_nonneg prec emax m e l H) as H1.
  destruct (shr_fexp prec emax m e l) as [mrs' e'] eqn:E1. simpl in H1.
  pose proof (shr_fexp_nonneg prec emax
                (round_nearest_even (shr_m mrs') (loc_of_shr_record mrs')) e' loc_Exact
                (round_nearest_even_nonneg _ _ H1)) as H2.
  destruct (shr_fexp prec emax _ e' loc_Exact) as [mrs'' e''] eqn:E2. simpl in H2.
  destruct (shr_m mrs'') as [|p|p]; [reflexivity| |lia].
  destruct (Z.leb e'' (emax - prec)); reflexivity.
Qed.

Lemma binary_normalize_not_nan (prec emax m e : Z) (s : bool) :
  isnan (binary_normalize prec emax m e s) = false.
Proof.
  destruct m as [|p|p]; simpl; [reflexivity| |];
    unfold binary_round; destruct (shl_align _ _ _) as [mz ez];
    apply binary_round_aux_not_nan; lia.
Qed.


(** The sum of two numbers that are neither NaN nor infinite is not NaN
    (it can be an infinity). *)
Lemma f_add_not_nan (a b : float64) :
  isnan a = false -> isinf a = false ->
  isnan b = false -> isinf b = false ->
  isnan (f_add a b) = false.
Proof.
  destruct a as [sa|sa| |sa ma ea]; destruct b as [sb|sb| |sb mb eb];
    simpl; try discriminate; intros _ _ _ _; try reflexivity.
  - destruct sa, sb; reflexivity.
  - apply binary_normalize_not_nan.
Qed.

(** Halving keeps a number a number. *)
Lemma f_div_two_not_nan (x : float64) :
  isnan x = false -> isnan (f_div x f_two) = false.
Proof.
  destruct x as [s|s| |s m e]; simpl; try discriminate; try reflexivity.
  intros _. unfold f_div, SFdiv, f_two.
  destruct (SFdiv_core_binary 53 1024 (Z.pos m) e 4503599627370496 (-51))
    as [[mz ez] lz] eqn:E.
  apply binary_round_aux_not_nan.
  unfold SFdiv_core_binary in E. cbv zeta in E.
  match type of E with
  | context [Z.div_eucl ?a ?b] =>
      pose proof (Z.div_eucl_eq a b ltac:(lia)) as Hq;
      pose proof (Z_div_mod a b ltac:(lia)) as Hr;
      assert (Ha : (0 <= a)%Z);
      [ | destruct (Z.div_eucl a b) as [q r] eqn:Eq' ]
  end.
  - destruct (_ - _ - _)%Z; try lia. apply Z.shiftl_nonneg. lia.
  - inversion E; subst. nia.
Qed.

(* ===================================================================== *)
(** * Columns after cleaning *)
(* ===================================================================== *)

Lemma count_none_all_some {A B : Type} (f : B -> A) (l : list B) :
  count_none (map (fun x => Some (f x)) l) = 0.
Proof.
  unfold count_none. induction l as [|x l IH]; simpl; [reflexivity | exact IH].
Qed.


Lemma count_nan_zero (l : list float64) :
  forallb (fun x => negb (isnan x)) l = true -> count_nan l = 0.
Proof.
  unfold count_nan. induction l as [|x l IH]; simpl; [reflexivity|].
  intros H. apply andb_true_iff in H. destruct H as [Hx Hl].
  destruct (isnan x); [discriminate | now apply IH].
Qed.


Lemma insert_sorted_length (x : float64) (l : list float64) :
  length (insert_sorted x l) = S (length l).
Proof.
  induction l as [|y l IH]; simpl; [reflexivity|].
  destruct (f_leb x y); simpl; [reflexivity | now rewrite IH].
Qed.

Lemma sort_floats_length (l : list float64) : length (sort_floats l) = length l.
Proof.
  induction l as [|x l IH]; simpl; [reflexivity|].
  rewrite insert_sorted_length. f_equal. exact IH.
Qed.

Lemma insert_sorted_In (x y : float64) (l : list float64) :
  In y (insert_sorted x l) -> y = x \/ In y l.
Proof.
  induction l as [|z l IH]; simpl.
  - intros [H|[]]. now left.
  - destruct (f_leb x z); simpl.
    + intros [H|[H|H]]; auto.
    + intros [H|H]; auto. destruct (IH H); auto.
Qed.

(** Sorting invents no value. *)
Lemma sort_floats_In (y : float64) (l : list float64) :
  In y (sort_floats l) -> In y l.
Proof.
  induction l as [|x l IH]; simpl; [auto|].
  intros H. apply insert_sorted_In in H.
  destruct H as [->|H]; [now left | right; now apply IH].
Qed.

Lemma masked_median_observed (v : list float64) :
  observed v <> [] -> exists m, masked_median v = Some m.
Proof.
  intros Hne. unfold masked_median.
  destruct (sort_floats (observed v)) as [|y s] eqn:E.
  - apply (f_equal (@length _)) in E. rewrite sort_floats_length in E.
    destruct (observed v); [contradiction | discriminate].
  - eexists; reflexivity.
Qed.

Lemma masked_median_none (v : list float64) :
  masked_median v = None -> observed v = [].
Proof.
  intros H. destruct (observed v) as [|x l] eqn:E; [reflexivity|].
  destruct (masked_median_observed v) as [m Hm]; [rewrite E; discriminate | congruence].
Qed.

Lemma middle_index_lt (n : nat) :
  0 < n -> (if Nat.even n then n / 2 - 1 else n / 2) < n /\ n / 2 < n.
Proof.
  intros Hn. pose proof (Nat.div_lt n 2 Hn ltac:(lia)).
  destruct (Nat.even n); lia.
Qed.

(** A value taken from the sorted observed values of a column without
    infinities is neither NaN nor infinite. *)
Lemma median_operand (v : list float64) (i : nat) :
  forallb (fun x => negb (isinf x)) v = true ->
  i < length (sort_floats (observed v)) ->
  isnan (nth i (sort_floats (observed v)) nan) = false /\
  isinf (nth i (sort_floats (observed v)) nan) = false.
Proof.
  intros Hfin Hi.
  pose proof (nth_In _ nan Hi) as Hin. apply sort_floats_In in Hin.
  unfold observed in Hin. apply filter_In in Hin. destruct Hin as [Hin Hnan].
  rewrite forallb_forall in Hfin. specialize (Hfin _ Hin).
  split; [now apply negb_true_iff in Hnan | now apply negb_true_iff in Hfin].
Qed.

(** The median of a column without infinities is not NaN. *)
Lemma masked_median_not_nan (v : list float64) (m : float64) :
  forallb (fun x => negb (isinf x)) v = true ->
  masked_median v = Some m -> isnan m = false.
Proof.
  intros Hfin. unfold masked_median.
  pose proof (fun i => median_operand v i Hfin) as Hop. revert Hop.
  generalize (sort_floats (observed v)). intros s Hop H.
  destruct s as [|y r]; [discriminate|].
  cbv beta iota zeta in H. injection H as <-.
  destruct (middle_index_lt (length (y :: r))) as [Hlow Hhigh]; [simpl; lia|].
  destruct (Hop _ Hlow) as [? ?]. destruct (Hop _ Hhigh) as [? ?].
  apply f_div_two_not_nan. now apply f_add_not_nan.
Qed.


Lemma impute_column_nonempty (v l : list float64) :
  impute_column v = Some l -> l <> [] /\ length l = length v.
Proof.
  unfold impute_column. destruct (masked_median v) as [m|] eqn:E; [|discriminate].
  intros H. inversion H; subst. split; [|apply length_map].
  destruct v as [|x v]; [cbv in E; discriminate E | discriminate].
Qed.


(** An imputed column without infinities has no NaN left. *)
Lemma impute_column_not_nan (v l : list float64) :
  forallb (fun x => negb (isinf x)) v = true ->
  impute_column v = Some l ->
  forallb (fun x => negb (isnan x)) l = true.
Proof.
  intros Hfin. unfold impute_column.
  destruct (masked_median v) as [m|] eqn:E; [|discriminate].
  intros H. inversion H; subst. apply forallb_forall. intros y Hy.
  apply in_map_iff in Hy. destruct Hy as [x [<- _]].
  destruct (isnan x) eqn:Hx; [|now rewrite Hx].
  now rewrite (masked_median_not_nan v m Hfin E).
Qed.


Lemma fillna_idem (fill : string) (c : column) :
  fillna fill (fillna fill c) = fillna fill c.
Proof.
  destruct c as [v|v|v|v]; simpl; try reflexivity.
  f_equal. rewrite map_map. apply map_ext. now intros [s|].
Qed.


Lemma fillna_shape (fill : string) (c : column) :
  col_dtype (fillna fill c) = col_dtype c /\ col_len (fillna fill c) = col_len c.
Proof.
  destruct c as [v|v|v|v]; simpl; auto. split; [reflexivity | apply length_map].
Qed.

Lemma impute_or_keep_len (c : column) :
  col_len (impute_or_keep c) = col_len c.
Proof.
  unfold impute_or_keep. destruct (is_number c) eqn:Hn; [|reflexivity].
  destruct (impute_column (float_cells c)) as [l|] eqn:E; [|reflexivity].
  destruct (impute_column_nonempty _ l E) as [_ Hlen]. simpl. rewrite Hlen.
  destruct c; simpl; try discriminate; [apply length_map | reflexivity].
Qed.

(** Imputation keeps a numeric column numeric and the others as they are. *)
Lemma impute_or_keep_number (c : column) :
  is_number (impute_or_keep c) = is_number c.
Proof.
  unfold impute_or_keep. destruct (is_number c) eqn:Hn; [|exact Hn].
  destruct (impute_column _); [reflexivity | exact Hn].
Qed.

Lemma impute_or_keep_other (c : column) :
  is_number c = false -> impute_or_keep c = c.
Proof. unfold impute_or_keep. now intros ->. Qed.

Lemma to_datetime_shape (w : World) (c : column) :
  col_dtype (to_datetime w c) = DDatetime /\
  col_len (to_datetime w c) = col_len c.
Proof.
  destruct c as [v|v|v|v]; simpl; split; auto using length_map.
Qed.

(** Missing values of a cleaned column: none, unless it holds dates. *)
Lemma cleaned_column_missing (c : column) :
  column_finite (fillna "Unknown" c) = true ->
  col_imputable (fillna "Unknown" c) = true ->
  col_missing (impute_or_keep (fillna "Unknown" c))
  = match c with ColDatetime v => count_none v | _ => 0 end.
Proof.
  destruct c as [v|v|v|v];
    unfold column_finite, col_imputable, impute_or_keep; simpl; try reflexivity.
  - intros Hfin.
    destruct (impute_column (map float_of_int v)) as [l|] eqn:E; [|discriminate].
    intros _. simpl. apply count_nan_zero.
    exact (impute_column_not_nan _ l Hfin E).
  - intros Hfin.
    destruct (impute_column v) as [l|] eqn:E; [|discriminate].
    intros _. simpl. apply count_nan_zero.
    exact (impute_column_not_nan _ l Hfin E).
  - intros _ _. unfold count_none. induction v as [|[s|] v IH]; simpl; auto.
Qed.


(* ===================================================================== *)
(** * Frames under column-wise maps *)
(* ===================================================================== *)

Lemma df_getitem_map_columns (f : column -> column) (d : DataFrame) (k : string) :
  df_getitem (map_columns f d) k = option_map f (df_getitem d k).
Proof.
  induction d as [|[n c] rest IH]; simpl; [reflexivity|].
  now destruct (String.eqb n k).
Qed.

Lemma df_getitem_setitem (d : DataFrame) (k : string) (v : column) :
  df_getitem (df_setitem d k v) k = Some v.
Proof.
  induction d as [|[n c] rest IH]; simpl.
  - now rewrite String.eqb_refl.
  - destruct (String.eqb n k) eqn:E; simpl; now rewrite E.
Qed.




Lemma map_columns_compose (f g : column -> column) (d : DataFrame) :
  map_columns f (map_columns g d) = map_columns (fun c => f (g c)) d.
Proof.
  unfold map_columns. rewrite map_map. reflexivity.
Qed.


Lemma map_columns_len (f : column -> column) (d : DataFrame) :
  (forall c, col_len (f c) = col_len c) -> df_len (map_columns f d) = df_len d.
Proof.
  intros H. destruct d as [|[n c] rest]; simpl; auto.
Qed.

Lemma numeric_matrix_width (f : column -> column) (d : DataFrame) :
  (forall c, is_number (f c) = is_number c) ->
  length (numeric_matrix (map_columns f d)) = length (numeric_matrix d).
Proof.
  intros H. unfold numeric_matrix, select_dtypes, map_columns. rewrite !length_map.
  induction d as [|[n c] rest IH]; simpl; [reflexivity|].
  change (DNumber (col_dtype (f c))) with (is_number (f c)).
  change (DNumber (col_dtype c)) with (is_number c).
  rewrite H. destruct (is_number c); simpl; now rewrite IH.
Qed.

(** What the validation has checked when it passes. *)
Lemma check_array_passes (X : list (list float64)) (n : nat) :
  check_array X n = inr tt -> X <> [] /\ all_finite X = true /\ n <> 0.
Proof.
  unfold check_array. destruct X as [|x X]; [discriminate|].
  cbn [length Nat.eqb]. destruct (all_finite (x :: X)); [|discriminate].
  destruct n; [discriminate|]. intros _. repeat split; discriminate.
Qed.

(** On a matrix with a feature and a sample the validation only looks for
    infinities. *)
Lemma check_array_outcome (X : list (list float64)) (n : nat) :
  X <> [] -> n <> 0 ->
  check_array X n = if all_finite X then inr tt else inl infinity_error.
Proof.
  intros HX Hn. unfold check_array.
  destruct X as [|x X]; [contradiction|]. cbn [length Nat.eqb].
  destruct (all_finite (x :: X)); [|reflexivity].
  destruct n; [contradiction | reflexivity].
Qed.

Lemma imputable_In (d : DataFrame) :
  imputable d = true -> forall n c, In (n, c) d -> col_imputable c = true.
Proof.
  unfold imputable. rewrite forallb_forall. intros H n c Hin. exact (H (n, c) Hin).
Qed.

(** Every column of a frame whose numeric matrix has no infinity is free of
    infinities. *)
Lemma all_finite_In (d : DataFrame) :
  all_finite (numeric_matrix d) = true ->
  forall n c, In (n, c) d -> column_finite c = true.
Proof.
  unfold all_finite, numeric_matrix, select_dtypes, column_finite.
  rewrite forallb_forall. intros H n c Hin.
  destruct (is_number c) eqn:Hn.
  - apply H. apply in_map_iff. exists (n, c). split; [reflexivity|].
    apply filter_In. split; [assumption | exact Hn].
  - destruct c; simpl in *; try discriminate; reflexivity.
Qed.

Lemma In_map_columns (f : column -> column) (d : DataFrame) (n : string) (c : column) :
  In (n, c) (map_columns f d) -> exists c0, In (n, c0) d /\ c = f c0.
Proof.
  unfold map_columns. rewrite in_map_iff. intros [[n0 c0] [Heq Hin]].
  simpl in Heq. inversion Heq; subst. now exists c0.
Qed.

(* ===================================================================== *)
(** * The clean table is a fixed point of every step *)
(* ===================================================================== *)






Lemma In_clean_table (w : World) (d : DataFrame) (n : string) (c : column) :
  In (n, c) (clean_table w d) ->
  exists c0, In (n, c0) (convert_date w d) /\
             c = impute_or_keep (fillna "Unknown" c0).
Proof.
  unfold clean_table, filled_table. intros H.
  apply In_map_columns in H. destruct H as [c1 [H1 ->]].
  apply In_map_columns in H1. destruct H1 as [c0 [H0 ->]].
  now exists c0.
Qed.


Lemma In_filled_of_convert (w : World) (d : DataFrame) (n : string) (c0 : column) :
  In (n, c0) (convert_date w d) -> In (n, fillna "Unknown" c0) (filled_table w d).
Proof.
  intros H. unfold filled_table, map_columns. apply in_map_iff.
  now exists (n, c0).
Qed.


(** The validation of the clean table can only fail on an infinity: the
    table has the features and the rows that were validated before. *)
Lemma clean_table_check (w : World) (d : DataFrame) :
  check_array (numeric_matrix (filled_table w d)) (df_len (filled_table w d)) = inr tt ->
  check_array (numeric_matrix (clean_table w d)) (df_len (clean_table w d))
  = if all_finite (numeric_matrix (clean_table w d))
    then inr tt else inl infinity_error.
Proof.
  intros H. apply check_array_passes in H. destruct H as [Hne [_ Hn]].
  apply check_array_outcome.
  - intros E. apply Hne. apply length_zero_iff_nil.
    rewrite <- (numeric_matrix_width impute_or_keep)
      by apply impute_or_keep_number.
    fold (clean_table w d). now rewrite E.
  - unfold clean_table.
    now rewrite (map_columns_len impute_or_keep) by apply impute_or_keep_len.
Qed.

Lemma with_df_with_df (st : State) (d d' : DataFrame) :
  with_df (with_df st d) d' = with_df st d'.
Proof. reflexivity. Qed.


(** When [preprocess_data] returns, the table is the clean table. *)
Lemma preprocess_data_returns (w : World) (st st1 : State) :
  NoDup (df_columns (df (self st))) ->
  preprocess_data w st = (inr tt, st1) ->
  st1 = with_df st (clean_table w (df (self st))) /\
  imputable (filled_table w (df (self st))) = true /\
  check_array (numeric_matrix (filled_table w (df (self st))))
    (df_len (filled_table w (df (self st)))) = inr tt.
Proof.
  intros Hnd H. rewrite (preprocess_data_spec w st Hnd) in H. simpl in H.
  destruct (check_array _ _) as [e|[]] eqn:Hc; [discriminate|].
  destruct (imputable _) eqn:Hi; [|discriminate].
  inversion H. auto.
Qed.

(* ===================================================================== *)
(** * C7: the Preprocessor is idempotent *)
(* ===================================================================== *)



(** On the sample table the second run returns. *)
Example preprocess_twice_sales_table :
  let st1 := snd (preprocess_data calm_world (instance_of "data.csv" sales_table)) in
  preprocess_data calm_world st1 = (inr tt, st1).
Proof. vm_compute. reflexivity. Qed.

(** A median that overflows: the two observed values of [overflow_table]
    add up to an infinity, which the first run writes into the missing
    cell; the second run is refused and changes nothing. *)
Example preprocess_twice_overflow_table :
  let st0 := instance_of "data.csv" overflow_table in
  let st1 := with_df st0 [("x", ColFloat [f_huge; f_huge; S754_infinity false])] in
  preprocess_data calm_world st0 = (inr tt, st1) /\
  preprocess_data calm_world st1 = (inl infinity_error, st1).
Proof. split; vm_compute; reflexivity. Qed.

(** The median is computed in float64: of 0.1 and 0.2 it is
    0.15000000000000002; and an integer column comes back as float64, so
    that 2^53 + 1 becomes 2^53. *)
Example preprocess_big_int_table :
  preprocess_data calm_world (instance_of "data.csv" big_int_table)
  = (inr tt,
     with_df (instance_of "data.csv" big_int_table)
       [ ("id", ColFloat [float_of_int 9007199254740992; float_of_int 2;
                          float_of_int 5]);
         ("x", ColFloat [f_tenth; f_fifth; f_0_15000000000000002]) ]).
Proof. vm_compute. reflexivity. Qed.

(* ===================================================================== *)
(** * C2: missing values after preprocessing *)
(* ===================================================================== *)

Lemma cleaned_column_missing_by_dtype (c0 : column) :
  column_finite (fillna "Unknown" c0) = true ->
  col_imputable (fillna "Unknown" c0) = true ->
  col_missing (impute_or_keep (fillna "Unknown" c0))
  = match impute_or_keep (fillna "Unknown" c0) with
    | ColDatetime v => count_none v
    | _ => 0
    end.
Proof.
  intros Hfin H. rewrite (cleaned_column_missing c0 Hfin H).
  destruct c0 as [v|v|v|v]; unfold col_imputable, impute_or_keep in *;
    simpl in *; try reflexivity.
  - destruct (impute_column (map float_of_int v)); [reflexivity | discriminate].
  - destruct (impute_column v); [reflexivity | discriminate].
Qed.

Lemma get_data_summary_returns (w : World) (st : State) :
  df (self st) <> [] ->
  get_data_summary w st =
  (inr {| total_rows := df_len (df (self st));
          total_columns := length (df_columns (df (self st)));
          column_types := map (fun nc => (fst nc, col_dtype (snd nc))) (df (self st));
          missing_values := map (fun nc => (fst nc, col_missing (snd nc))) (df (self st));
          numeric_summary := describe_stats w (df (self st)) |}, st).
Proof.
  intros Hne. unfold get_data_summary, bind, get_self, lift, describe, ret.
  destruct (df (self st)); [contradiction | reflexivity].
Qed.






(* ===================================================================== *)
(** * C1: the Narrator under sustained failure *)
(* ===================================================================== *)

Lemma chat_calls_app (tr tr' : list event) :
  chat_calls (tr ++ tr') = chat_calls tr + chat_calls tr'.
Proof. unfold chat_calls. now rewrite filter_app, length_app. Qed.

Lemma sleeps_app (tr tr' : list event) : sleeps (tr ++ tr') = sleeps tr ++ sleeps tr'.
Proof. unfold sleeps. apply filter_app. Qed.

(** The body sends one request and returns, whatever the service does. *)
Lemma generate_narrative_body_returns (w : World) (s : Summary) (r : ClusterResult)
    (st : State) :
  generate_narrative_body w s r st =
  let n := chat_calls (trace st) in
  match chat_completion w n s r with
  | inr content =>
      (inr (strip content), mkState (self st) (trace st ++ [EvChat n s r]))
  | inl e =>
      (inr fallback_narrative,
       mkState (self st)
         ((trace st ++ [EvChat n s r])
          ++ [EvPrint ("Error generating narrative: " ++ exn_msg e)]))
  end.
Proof.
  unfold generate_narrative_body, request_narrative, try_except, bind, get_trace,
    emit, lift, print, ret; simpl.
  destruct (chat_completion w (chat_calls (trace st)) s r); reflexivity.
Qed.

(** The decorator runs a computation that returns exactly once. *)
Lemma retry_returning_body {A : Type} (n : nat) (wait : nat -> Z) (body : M A)
    (st st' : State) (x : A) :
  body st = (inr x, st') -> retry n wait body st = (inr x, st').
Proof.
  intros H. unfold retry. simpl. unfold try_except. now rewrite H.
Qed.

Lemma generate_narrative_is_body (w : World) (s : Summary) (r : ClusterResult)
    (st : State) :
  generate_narrative w s r st = generate_narrative_body w s r st.
Proof.
  unfold generate_narrative.
  destruct (generate_narrative_body w s r st) as [[e|x] st'] eqn:E.
  - rewrite generate_narrative_body_returns in E. simpl in E.
    destruct (chat_completion w (chat_calls (trace st)) s r); discriminate.
  - now apply retry_returning_body.
Qed.

(** Whatever the service does, [generate_narrative] returns a narrative,
    has sent exactly one request, has not slept, and leaves the instance
    alone. *)
Lemma generate_narrative_one_request (w : World) (s : Summary) (r : ClusterResult)
    (st : State) :
  exists text st',
    generate_narrative w s r st = (inr text, st') /\
    self st' = self st /\
    chat_calls (trace st') = S (chat_calls (trace st)) /\
    sleeps (trace st') = sleeps (trace st) /\
    write_calls (trace st') = write_calls (trace st).
Proof.
  rewrite generate_narrative_is_body, generate_narrative_body_returns. simpl.
  destruct (chat_completion w (chat_calls (trace st)) s r) as [e|content];
    do 2 eexists; (split; [reflexivity|]); simpl;
    (split; [reflexivity|]);
    (split; [unfold chat_calls; rewrite ?filter_app, ?length_app; simpl; lia|]);
    (split; [unfold sleeps; rewrite ?filter_app; simpl; now rewrite ?app_nil_r|]);
    unfold write_calls; rewrite ?filter_app, ?length_app; simpl; lia.
Qed.

(** The waits of [wait_exponential(multiplier=1, min=4, max=10)]. *)
Example wait_exponential_values :
  map (wait_exponential 1 4 10) [1; 2; 3; 4; 5; 6] = [4; 4; 4; 8; 10; 10]%Z.
Proof. reflexivity. Qed.

(** Had the failure of the request reached the decorator, it would have made
    three attempts, four seconds apart, and raised [RetryError]. *)
Lemma retry_of_bare_request_service_down (s : Summary) (r : ClusterResult) :
  retry 3 (wait_exponential 1 4 10) (request_narrative service_down_world s r)
    (instance_of "data.csv" sales_table)
  = (inl RetryError,
     mkState (self (instance_of "data.csv" sales_table))
       [EvChat 0 s r; EvSleep 4; EvChat 1 s r; EvSleep 4; EvChat 2 s r]).
Proof. reflexivity. Qed.

(** C1, evaluated where the service fails on every request: the text is the
    fallback and nothing is raised, but ONE request was sent and no backoff
    sleep happened, where the claim has three attempts. *)
Theorem generate_narrative_service_down :
  generate_narrative service_down_world sample_summary sample_results
    (instance_of "data.csv" sales_table)
  = (inr fallback_narrative,
     mkState (self (instance_of "data.csv" sales_table))
       [EvChat 0 sample_summary sample_results;
        EvPrint "Error generating narrative: HTTP 500"])
  /\ chat_calls [EvChat 0 sample_summary sample_results;
                 EvPrint "Error generating narrative: HTTP 500"] = 1
  /\ sleeps [EvChat 0 sample_summary sample_results;
             EvPrint "Error generating narrative: HTTP 500"] = [].
Proof. repeat split; reflexivity. Qed.

(* ===================================================================== *)
(** * The Reporter *)
(* ===================================================================== *)

Lemma only_adds_refl (p : event -> bool) (st : State) : only_adds p st st.
Proof.
  split; [reflexivity|]. exists []. now rewrite app_nil_r.
Qed.

Lemma only_adds_trans (p : event -> bool) (st1 st2 st3 : State) :
  only_adds p st1 st2 -> only_adds p st2 st3 -> only_adds p st1 st3.
Proof.
  intros [Hs1 [tr1 [Ht1 Hp1]]] [Hs2 [tr2 [Ht2 Hp2]]]. split; [congruence|].
  exists (tr1 ++ tr2). split.
  - now rewrite Ht2, Ht1, app_assoc.
  - now rewrite forallb_app, Hp1, Hp2.
Qed.

Lemma only_adds_emit (p : event -> bool) (st : State) (e : event) :
  p e = true -> only_adds p st (mkState (self st) (trace st ++ [e])).
Proof.
  intros He. split; [reflexivity|]. exists [e]. split; [reflexivity|].
  simpl. now rewrite He.
Qed.

Lemma report_events_no_chat (tr : list event) :
  forallb is_report_event tr = true -> chat_calls tr = 0.
Proof.
  unfold chat_calls. induction tr as [|e tr IH]; simpl; [reflexivity|].
  intros H. apply andb_true_iff in H. destruct H as [He Htr].
  destruct e; simpl in *; try discriminate; auto.
Qed.

Lemma only_adds_report_chat_calls (st st' : State) :
  only_adds is_report_event st st' -> chat_calls (trace st') = chat_calls (trace st).
Proof.
  intros [_ [tr' [Ht Hp]]]. rewrite Ht, chat_calls_app.
  rewrite (report_events_no_chat tr' Hp). lia.
Qed.

Lemma last_event_snoc (tr : list event) (e : event) :
  last_event (tr ++ [e]) = Some e.
Proof. unfold last_event. now rewrite rev_app_distr. Qed.

(** The writes stop at the first one that fails. *)
Lemma write_all_outcome (w : World) (chunks : list (list piece)) :
  forall (i : nat) (st : State),
  exists st',
    only_adds is_report_event st st' /\
    write_all w i chunks st =
    (match first_write_error w i (length chunks) with
     | Some e => inl e
     | None => inr tt
     end, st').
Proof.
  induction chunks as [|chunk rest IH]; intros i st; simpl.
  - exists st. split; [apply only_adds_refl | reflexivity].
  - destruct (write_error w i) as [e|].
    + exists st. split; [apply only_adds_refl | reflexivity].
    + destruct (IH (S i) (mkState (self st) (trace st ++ [EvWrite chunk])))
        as [st' [Hadds Hrun]].
      exists st'. split.
      * eapply only_adds_trans; [|exact Hadds]. now apply only_adds_emit.
      * unfold bind, emit. simpl. exact Hrun.
Qed.

(** Opening, writing and closing fail with the first failure among them,
    except that a failure of the closing replaces one of a write. *)
Lemma with_open_outcome (w : World) (path : string) (chunks : list (list piece))
    (st : State) :
  exists st',
    only_adds is_report_event st st' /\
    with_open w path (write_all w 0 chunks) st =
    (match first_report_failure w path (length chunks) with
     | Some e => inl e
     | None => inr tt
     end, st').
Proof.
  unfold with_open, first_report_failure.
  destruct (open_write w path) as [e|].
  - exists st. split; [apply only_adds_refl | reflexivity].
  - destruct (write_all_outcome w chunks 0 (mkState (self st) (trace st ++ [EvOpen path])))
      as [st1 [Hadds Hrun]].
    assert (H0 : only_adds is_report_event st st1).
    { eapply only_adds_trans; [|exact Hadds]. now apply only_adds_emit. }
    unfold bind, emit, try_except, raise, ret. simpl. rewrite Hrun.
    exists (mkState (self st1) (trace st1 ++ [EvClose])).
    split.
    + eapply only_adds_trans; [exact H0|]. now apply only_adds_emit.
    + destruct (first_write_error w 0 (length chunks));
        simpl; destruct (close_error w); reflexivity.
Qed.

(** ** What [save_results] does

    A failure of [os.makedirs], which stands before the [try], leaves
    [save_results] as an exception.  Past it, [save_results] returns: its
    last act is a print, of the success line or of the failure caught. *)
Lemma save_results_outcome (w : World) (s : Summary) (r : ClusterResult)
    (n : string) (st : State) :
  let folder := folder_name_of (dataset_path (self st)) in
  match makedirs w folder with
  | Some e => save_results w s r n st = (inl e, st)
  | None =>
      exists st',
        save_results w s r n st = (inr tt, st') /\
        only_adds is_report_event st st' /\
        last_event (trace st') =
        Some (EvPrint
                match first_report_failure w (folder ++ "/README.md")
                        (length (report_chunks (dataset_path (self st)) s r n)) with
                | None => report_saved
                | Some e => "Error saving results: " ++ exn_msg e
                end)
  end.
Proof.
  cbv zeta. unfold save_results, bind, get_self, os_makedirs, try_except, print, emit.
  cbv beta iota.
  destruct (makedirs w (folder_name_of (dataset_path (self st)))) as [e|] eqn:Hmk.
  - reflexivity.
  - cbv beta iota.
    set (st0 := mkState (self st)
                  (trace st ++ [EvMakedirs (folder_name_of (dataset_path (self st)))])).
    destruct (with_open_outcome w (folder_name_of (dataset_path (self st)) ++ "/README.md")
                (report_chunks (dataset_path (self st)) s r n) st0)
      as [st1 [Hadds Hrun]].
    assert (H0 : only_adds is_report_event st st1).
    { eapply only_adds_trans; [|exact Hadds]. now apply only_adds_emit. }
    rewrite Hrun.
    destruct (first_report_failure w _ _) as [e|]; cbv beta iota;
      eexists; (split; [reflexivity|]); split;
      try (eapply only_adds_trans; [exact H0|]; now apply only_adds_emit);
      apply last_event_snoc.
Qed.

(* ===================================================================== *)
(** * C8: where the report is written *)
(* ===================================================================== *)

(** For a dataset path with a single dot and no directory part, the folder
    of the code is the folder of the specification. *)
Example folder_name_plain :
  folder_name_of "goodreads.csv" = "goodreads" /\
  spec_folder_name "goodreads.csv" = "goodreads".
Proof. split; reflexivity. Qed.

(** C8, evaluated on a file name with two dots: the run creates the folder
    [my] and writes [my/README.md], where the base name with its extension
    stripped is [my.data]. *)
Theorem save_results_folder_two_dots :
  let st := snd (save_results calm_world sample_summary sample_results "text"
                   (instance_of "my.data.csv" sales_table)) in
  created_dirs (trace st) = ["my"] /\
  opened_paths (trace st) = ["my/README.md"] /\
  spec_folder_name "my.data.csv" = "my.data" /\
  folder_name_of "my.data.csv" <> spec_folder_name "my.data.csv".
Proof.
  repeat split; try (vm_compute; reflexivity).
  vm_compute. discriminate.
Qed.

(** The same slip on a path that starts with [./]: the folder is the empty
    path. *)
Example folder_name_dot_slash :
  folder_name_of "./data.csv" = EmptyString /\
  spec_folder_name "./data.csv" = "data".
Proof. split; reflexivity. Qed.

(* ===================================================================== *)
(** * C9: failures while the report is written *)
(* ===================================================================== *)

(** C9, the claim as stated fails: for the path [./data.csv] the folder is
    the empty path, [os.makedirs] refuses it, and the exception leaves
    [save_results]: the call stands before the [try]. *)
Lemma save_results_makedirs_failure_propagates :
  save_results strict_fs_world sample_summary sample_results "text"
    (instance_of "./data.csv" sales_table)
  = (inl (Exn "FileNotFoundError" "No such file or directory: ''"),
     instance_of "./data.csv" sales_table).
Proof. reflexivity. Qed.

(** C9, amended.  Once the output folder has been created, every failure
    of opening, writing or closing README.md is caught: [save_results]
    returns, the instance is untouched, and its last act is the print of
    the failure (of the success line when nothing failed).  A failure of
    [os.makedirs] is not caught. *)
Theorem save_results_catches_write_failures (w : World) (s : Summary)
    (r : ClusterResult) (n : string) (st : State) :
  let folder := folder_name_of (dataset_path (self st)) in
  match makedirs w folder with
  | Some e => save_results w s r n st = (inl e, st)
  | None =>
      exists st',
        save_results w s r n st = (inr tt, st') /\
        self st' = self st /\
        last_event (trace st') =
        Some (EvPrint
                match first_report_failure w (folder ++ "/README.md")
                        (length (report_chunks (dataset_path (self st)) s r n)) with
                | None => report_saved
                | Some e => "Error saving results: " ++ exn_msg e
                end)
  end.
Proof.
  pose proof (save_results_outcome w s r n st) as H. cbv zeta in *.
  destruct (makedirs w (folder_name_of (dataset_path (self st)))); [exact H|].
  destruct H as [st' [Hrun [[Hself _] Hlast]]].
  exists st'. auto.
Qed.

(** A disk that fills up at the sixth write: the report is cut short, the
    failure is printed, and [save_results] returns. *)
Example save_results_disk_full :
  let out := save_results disk_full_world sample_summary sample_results "text"
               (instance_of "data.csv" sales_table) in
  fst out = inr tt /\
  write_calls (trace (snd out)) = 5 /\
  last_event (trace (snd out))
  = Some (EvPrint "Error saving results: No space left on device").
Proof. repeat split; vm_compute; reflexivity. Qed.

(* ===================================================================== *)
(** * The Summarizer and the Clusterer *)
(* ===================================================================== *)

Lemma get_data_summary_outcome (w : World) (st : State) :
  get_data_summary w st =
  match df (self st) with
  | [] => (inl (ValueError "Cannot describe a DataFrame without columns"), st)
  | _ :: _ =>
      (inr {| total_rows := df_len (df (self st));
              total_columns := length (df_columns (df (self st)));
              column_types := map (fun nc => (fst nc, col_dtype (snd nc))) (df (self st));
              missing_values := map (fun nc => (fst nc, col_missing (snd nc))) (df (self st));
              numeric_summary := describe_stats w (df (self st)) |}, st)
  end.
Proof.
  destruct (df (self st)) eqn:E.
  - unfold get_data_summary, bind, get_self, lift, describe. now rewrite E.
  - rewrite <- E. apply get_data_summary_returns. congruence.
Qed.

Lemma get_data_summary_pure (w : World) (st : State) :
  snd (get_data_summary w st) = st.
Proof.
  rewrite get_data_summary_outcome. now destruct (df (self st)).
Qed.

Lemma perform_clustering_outcome (w : World) (k : nat) (st : State) :
  perform_clustering w k st =
  let d := df (self st) in
  match StandardScaler_fit_transform w (numeric_matrix d) (df_len d) with
  | inl e => (inl e, st)
  | inr X =>
      match KMeans_fit w k X (df_len d) with
      | inl e => (inl e, st)
      | inr fit =>
          if Nat.eqb (length (km_labels fit)) (df_len d)
          then (inr {| cluster_centers := km_centers fit; inertia := km_inertia fit |},
                with_df st (df_setitem d "cluster"
                              (ColInt (map label_cell (km_labels fit)))))
          else (inl (ValueError "Length of values does not match length of index"), st)
      end
  end.
Proof.
  unfold perform_clustering, bind, get_self, lift, set_df, raise, ret, with_df.
  cbv zeta beta iota.
  destruct (StandardScaler_fit_transform w _ _) as [e|X]; [reflexivity|].
  destruct (KMeans_fit w k X _) as [e|fit]; [reflexivity|].
  destruct (Nat.eqb _ _); reflexivity.
Qed.

Lemma df_setitem_width (d : DataFrame) (k : string) (v : column) :
  df_width (df_setitem d k v)
  = if has_column d k then df_width d else S (df_width d).
Proof.
  unfold df_width, has_column.
  induction d as [|[n c] rest IH]; simpl; [reflexivity|].
  rewrite (String.eqb_sym k n).
  destruct (String.eqb n k); simpl; [reflexivity|].
  rewrite IH. now destruct (existsb (String.eqb k) (df_columns rest)).
Qed.

Lemma df_setitem_len (d : DataFrame) (k : string) (v : column) :
  col_len v = df_len d -> df_len (df_setitem d k v) = df_len d.
Proof.
  destruct d as [|[n c] rest]; simpl; [auto|].
  destruct (String.eqb n k); simpl; auto.
Qed.

Lemma df_setitem_len_same (d : DataFrame) (k : string) (c v : column) :
  df_getitem d k = Some c -> col_len v = col_len c ->
  df_len (df_setitem d k v) = df_len d.
Proof.
  destruct d as [|[n c0] rest]; simpl; [discriminate|].
  destruct (String.eqb n k); simpl; [|reflexivity].
  intros H. inversion H; subst. auto.
Qed.

Lemma has_column_In (d : DataFrame) (k : string) :
  has_column d k = true <-> In k (df_columns d).
Proof. apply existsb_eqb_In. Qed.

Lemma df_setitem_has (d : DataFrame) (k : string) (v : column) :
  In k (df_columns (df_setitem d k v)).
Proof.
  apply (df_getitem_present _ k v). apply df_getitem_setitem.
Qed.

Lemma convert_date_len (w : World) (d : DataFrame) :
  df_len (convert_date w d) = df_len d.
Proof.
  unfold convert_date. destruct (df_getitem d "date") as [c|] eqn:E; [|reflexivity].
  apply (df_setitem_len_same d "date" c); [assumption|]. apply to_datetime_shape.
Qed.

Lemma filled_table_len (w : World) (d : DataFrame) :
  df_len (filled_table w d) = df_len d.
Proof.
  unfold filled_table. rewrite map_columns_len by (intros c; apply fillna_shape).
  apply convert_date_len.
Qed.

Lemma clean_table_len (w : World) (d : DataFrame) :
  df_len (clean_table w d) = df_len d.
Proof.
  unfold clean_table. rewrite map_columns_len by (intros c; apply impute_or_keep_len).
  apply filled_table_len.
Qed.

(** Preprocessing keeps the labels and the number of rows, also when it
    raises half-way. *)
Lemma preprocess_data_shape (w : World) (st : State) :
  NoDup (df_columns (df (self st))) ->
  df_len (df (self (snd (preprocess_data w st)))) = df_len (df (self st)) /\
  df_columns (df (self (snd (preprocess_data w st)))) = df_columns (df (self st)).
Proof.
  intros Hnd. rewrite (preprocess_data_spec w st Hnd). cbv zeta.
  destruct (check_array _ _) as [e|u]; [|destruct (imputable _)]; simpl;
    rewrite ?filled_table_len, ?clean_table_len, ?filled_table_columns,
      ?clean_table_columns; auto.
Qed.

Lemma perform_clustering_shape (w : World) (k : nat) (st : State) :
  df_len (df (self (snd (perform_clustering w k st)))) = df_len (df (self st)) /\
  df_width (df (self (snd (perform_clustering w k st)))) =
  match fst (perform_clustering w k st) with
  | inr _ =>
      if has_column (df (self st)) "cluster" then df_width (df (self st))
      else S (df_width (df (self st)))
  | inl _ => df_width (df (self st))
  end.
Proof.
  rewrite perform_clustering_outcome. cbv zeta.
  destruct (StandardScaler_fit_transform w _ _) as [e|X]; [auto|].
  destruct (KMeans_fit w k X _) as [e|fit]; [auto|].
  destruct (Nat.eqb_spec (length (km_labels fit)) (df_len (df (self st)))) as [Hlen|_];
    [|auto].
  simpl. split.
  - apply df_setitem_len. simpl. now rewrite length_map.
  - apply df_setitem_width.
Qed.

Lemma bind_raises {A B : Type} (c : M A) (k : A -> M B) (st st' : State) (e : exn) :
  c st = (inl e, st') -> bind c k st = (inl e, st').
Proof. intros H. unfold bind. now rewrite H. Qed.

Lemma bind_returns {A B : Type} (c : M A) (k : A -> M B) (st st' : State) (x : A) :
  c st = (inr x, st') -> bind c k st = k x st'.
Proof. intros H. unfold bind. now rewrite H. Qed.

(* ===================================================================== *)
(** * C3: a table without numeric columns *)
(* ===================================================================== *)

(** C3, the claim as stated fails: on a clean table of one text column the
    run raises the [ValueError] of the scaler's input validation; the
    program has no [ClusteringError]. *)
Lemma text_only_table_raises_ValueError :
  run_analysis calm_world (instance_of "data.csv" city_table)
  = (inl (ValueError "at least one array or dtype is required"),
     instance_of "data.csv" city_table)
  /\ exn_class (ValueError "at least one array or dtype is required")
     <> "ClusteringError".
Proof. split; [reflexivity | discriminate]. Qed.

(** C3, amended.  On a table without numeric column [run_analysis] raises
    a [ValueError] and leaves the state as it found it: no request for a
    narrative has been sent, nothing has been written. *)
Theorem run_analysis_without_numeric_columns (w : World) (st : State) :
  select_dtypes DNumber (df (self st)) = [] ->
  exists e,
    run_analysis w st = (inl e, st) /\
    exn_class e = "ValueError" /\
    chat_calls (trace (snd (run_analysis w st))) = chat_calls (trace st).
Proof.
  intros Hnum.
  assert (H : exists e, run_analysis w st = (inl e, st) /\ exn_class e = "ValueError").
  { unfold run_analysis.
    pose proof (get_data_summary_outcome w st) as Hs.
    destruct (df (self st)) as [|nc rest] eqn:Hd.
    - eexists. split; [apply (bind_raises _ _ _ _ _ Hs) | reflexivity].
    - rewrite (bind_returns _ _ _ _ _ Hs).
      pose proof (perform_clustering_outcome w 3 st) as Hc. cbv zeta in Hc.
      unfold StandardScaler_fit_transform, numeric_matrix in Hc.
      rewrite Hd in Hc. rewrite Hnum in Hc. simpl in Hc.
      eexists. split; [apply (bind_raises _ _ _ _ _ Hc) | reflexivity]. }
  destruct H as [e [Hrun Hcls]]. exists e. rewrite Hrun. auto.
Qed.

Lemma run_analysis_without_numeric_columns_witness :
  select_dtypes DNumber city_table = [] /\
  exists e,
    run_analysis calm_world (instance_of "data.csv" city_table)
    = (inl e, instance_of "data.csv" city_table) /\
    exn_class e = "ValueError" /\
    chat_calls (trace (snd (run_analysis calm_world (instance_of "data.csv" city_table))))
    = chat_calls (trace (instance_of "data.csv" city_table)).
Proof.
  split; [reflexivity|].
  apply (run_analysis_without_numeric_columns calm_world
           (instance_of "data.csv" city_table)).
  reflexivity.
Defined.

(** From the file on, the run of a table without numeric column stops in
    the constructor, at the imputer, with the same class of error and
    before any request. *)
Example text_only_file_run :
  fst (main text_only_world "data.csv")
  = inl (ValueError "at least one array or dtype is required") /\
  chat_calls (trace (snd (main text_only_world "data.csv"))) = 0.
Proof. split; reflexivity. Qed.

(* ===================================================================== *)
(** * C5: the shape of the table through the stages *)
(* ===================================================================== *)

(** C5, the claim as stated fails: the sample run ingests three columns and
    ends with four, the fourth being the [cluster] labels. *)
Lemma clustering_adds_a_column :
  let st0 := snd (init calm_world (fresh_instance "data.csv")) in
  let out := run_analysis calm_world st0 in
  fst out = inr tt /\
  df_columns (df (self st0)) = ["date"; "city"; "sales"] /\
  df_columns (df (self (snd out))) = ["date"; "city"; "sales"; "cluster"] /\
  df_width (df (self (snd out))) <> df_width (df (self st0)).
Proof.
  repeat split; try (vm_compute; reflexivity).
  vm_compute. discriminate.
Qed.

(** C5, amended.  The number of rows is the same after every stage.  The
    labels, hence the number of columns, are the same after preprocessing,
    summarization, narration and reporting; a clustering that returns has
    added one column, [cluster], unless the table had a column of that
    label, which it then replaced. *)
Theorem table_shape_through_the_stages (w : World) (st : State) :
  unique_labels (df_columns (df (self st))) = true ->
  (df_len (df (self (snd (preprocess_data w st)))) = df_len (df (self st)) /\
   df_columns (df (self (snd (preprocess_data w st)))) = df_columns (df (self st)))
  /\ snd (get_data_summary w st) = st
  /\ (forall k,
        df_len (df (self (snd (perform_clustering w k st)))) = df_len (df (self st)) /\
        df_width (df (self (snd (perform_clustering w k st)))) =
        match fst (perform_clustering w k st) with
        | inr _ =>
            if has_column (df (self st)) "cluster" then df_width (df (self st))
            else S (df_width (df (self st)))
        | inl _ => df_width (df (self st))
        end)
  /\ (forall s r, self (snd (generate_narrative w s r st)) = self st)
  /\ (forall s r n, self (snd (save_results w s r n st)) = self st).
Proof.
  intros Hu. apply unique_labels_NoDup in Hu.
  split; [now apply preprocess_data_shape|].
  split; [apply get_data_summary_pure|].
  split; [intros k; apply perform_clustering_shape|].
  split.
  - intros s r. destruct (generate_narrative_one_request w s r st)
      as [text [st' [Hrun [Hself _]]]]. now rewrite Hrun.
  - intros s r n. pose proof (save_results_outcome w s r n st) as H. cbv zeta in H.
    destruct (makedirs w _).
    + now rewrite H.
    + destruct H as [st' [Hrun [[Hself _] _]]]. now rewrite Hrun.
Qed.

Lemma table_shape_through_the_stages_witness :
  unique_labels (df_columns sales_table) = true /\
  df_len (df (self (snd (preprocess_data calm_world (instance_of "data.csv" sales_table)))))
  = df_len sales_table.
Proof.
  split; [reflexivity|].
  apply (table_shape_through_the_stages calm_world (instance_of "data.csv" sales_table)).
  reflexivity.
Defined.

(* ===================================================================== *)
(** * C4: ingestion failures *)
(* ===================================================================== *)

Lemma load_dataset_outcome (w : World) (st : State) :
  load_dataset w st =
  match read_csv w (dataset_path (self st)) (encoding (self st)) with
  | inr d =>
      (inr d,
       mkState (self st)
         (trace st ++
          [EvPrint ("Dataset loaded successfully with " ++ str_of_nat (df_len d)
                    ++ " rows and " ++ str_of_nat (df_width d) ++ " columns.")]))
  | inl e =>
      (inl (ValueError ("Error loading dataset: " ++ exn_msg e)),
       mkState (self st)
         (trace st ++ [EvPrint ("Error loading dataset: " ++ exn_msg e)]))
  end.
Proof.
  unfold load_dataset, bind, get_self, try_except, lift, print, emit, raise, ret.
  cbv beta iota.
  destruct (read_csv w (dataset_path (self st)) (encoding (self st))); reflexivity.
Qed.

Lemma detect_encoding_outcome (w : World) (st : State) :
  detect_encoding w st =
  match read_bytes w (dataset_path (self st)) with
  | inl e => (inl e, st)
  | inr raw => (inr (detected_encoding w raw), st)
  end.
Proof.
  unfold detect_encoding, bind, get_self, lift, ret. cbv beta iota.
  destruct (read_bytes w (dataset_path (self st))); reflexivity.
Qed.

Lemma probe_proxy_outcome (w : World) (st : State) :
  exists msg,
    probe_proxy w st
    = (inr tt, mkState (self st) ((trace st ++ [EvHttpGet proxy_url]) ++ [EvPrint msg])).
Proof.
  unfold probe_proxy, bind, emit, print. cbv beta iota.
  destruct (proxy_get w); eexists; reflexivity.
Qed.

(** The constructor stops at the first failure of the Ingestor. *)
Lemma init_ingestion_failure (w : World) (st : State) :
  match read_bytes w (dataset_path (self st)) with
  | inl e => init w st = (inl e, st)
  | inr raw =>
      forall e0,
        read_csv w (dataset_path (self st)) (detected_encoding w raw) = inl e0 ->
        exists st',
          init w st = (inl (ValueError ("Error loading dataset: " ++ exn_msg e0)), st') /\
          trace st' = trace st ++ [EvPrint ("Error loading dataset: " ++ exn_msg e0)]
  end.
Proof.
  pose proof (detect_encoding_outcome w st) as Hd.
  destruct (read_bytes w (dataset_path (self st))) as [e|raw].
  - unfold init. apply (bind_raises _ _ _ _ _ Hd).
  - intros e0 Hcsv. unfold init. rewrite (bind_returns _ _ _ _ _ Hd).
    unfold bind at 1, set_encoding at 1. cbv beta iota.
    eexists. split.
    + apply bind_raises. rewrite load_dataset_outcome. simpl. rewrite Hcsv. reflexivity.
    + reflexivity.
Qed.

(** C4, the claim as stated fails: a file that holds a header and no row is
    parsed to a table of zero rows, and [load_dataset] returns it. *)
Lemma load_dataset_accepts_zero_rows :
  exists d st',
    load_dataset header_only_world (instance_of "data.csv" []) = (inr d, st') /\
    df_len d = 0.
Proof. do 2 eexists. split; reflexivity. Qed.

(** C4, amended.  [load_dataset] raises exactly when [read_csv] raises (the
    file cannot be opened or decoded, or holds nothing to parse), and then
    raises a [ValueError] that wraps the message; whatever [read_csv]
    returns is returned as it is, a table without rows included.  The
    failure is fatal: the run ends with that exception in the constructor,
    before any request for a narrative and before any write.  A file that
    cannot be read ends the run earlier, in [detect_encoding], with the
    exception of the read. *)
Theorem load_dataset_fails_iff_read_csv_raises (w : World) (st : State) :
  ((exists e st', load_dataset w st = (inl e, st')) <->
   (exists e0, read_csv w (dataset_path (self st)) (encoding (self st)) = inl e0))
  /\ (forall e st', load_dataset w st = (inl e, st') -> exn_class e = "ValueError")
  /\ (forall d, read_csv w (dataset_path (self st)) (encoding (self st)) = inr d ->
      fst (load_dataset w st) = inr d)
  /\ (forall path raw e0,
        read_bytes w path = inr raw ->
        read_csv w path (detected_encoding w raw) = inl e0 ->
        fst (main w path) = inl (ValueError ("Error loading dataset: " ++ exn_msg e0)) /\
        chat_calls (trace (snd (main w path))) = 0 /\
        write_calls (trace (snd (main w path))) = 0)
  /\ (forall path e0,
        read_bytes w path = inl e0 ->
        fst (main w path) = inl e0 /\
        chat_calls (trace (snd (main w path))) = 0 /\
        write_calls (trace (snd (main w path))) = 0).
Proof.
  pose proof (load_dataset_outcome w st) as Hload.
  split; [|split; [|split; [|split]]].
  - split.
    + intros [e [st' H]]. rewrite H in Hload.
      destruct (read_csv w _ _) as [e0|d]; [now exists e0 | discriminate].
    + intros [e0 H]. rewrite H in Hload. eauto.
  - intros e st' H. rewrite H in Hload.
    destruct (read_csv w _ _) as [e0|d]; inversion Hload. reflexivity.
  - intros d H. rewrite H in Hload. now rewrite Hload.
  - intros path raw e0 Hraw Hcsv.
    destruct (probe_proxy_outcome w (fresh_instance path)) as [msg Hp].
    unfold main. rewrite (bind_returns _ _ _ _ _ Hp).
    pose proof (init_ingestion_failure w
      (mkState (self (fresh_instance path))
         ((trace (fresh_instance path) ++ [EvHttpGet proxy_url]) ++ [EvPrint msg]))) as Hi.
    simpl in Hi. rewrite Hraw in Hi.
    destruct (Hi e0 Hcsv) as [st' [Hinit Htr]].
    rewrite (bind_raises _ _ _ _ _ Hinit). simpl. rewrite Htr.
    repeat split; reflexivity.
  - intros path e0 Hraw.
    destruct (probe_proxy_outcome w (fresh_instance path)) as [msg Hp].
    unfold main. rewrite (bind_returns _ _ _ _ _ Hp).
    pose proof (init_ingestion_failure w
      (mkState (self (fresh_instance path))
         ((trace (fresh_instance path) ++ [EvHttpGet proxy_url]) ++ [EvPrint msg]))) as Hi.
    simpl in Hi. rewrite Hraw in Hi.
    rewrite (bind_raises _ _ _ _ _ Hi). simpl.
    repeat split; reflexivity.
Qed.

(** A file without anything to parse: the run stops in the constructor. *)
Example unreadable_file_run :
  fst (main unreadable_world "data.csv")
  = inl (ValueError "Error loading dataset: No columns to parse from file").
Proof. reflexivity. Qed.

(** A header-only file passes ingestion; the run stops later, when the
    imputer is given no numeric column. *)
Example header_only_file_run :
  fst (main header_only_world "data.csv")
  = inl (ValueError "at least one array or dtype is required").
Proof. reflexivity. Qed.

(* ===================================================================== *)
(** * C10: the Summary is taken before the labels are attached *)
(* ===================================================================== *)

(** C10.  In [run_analysis] the Summary is computed from the table as it is
    before clustering: its column count and the keys of its column_types
    and missing_values are those of that table.  When the table has no
    column [cluster], the Summary has no entry for it although the table
    has one after clustering, and it is this Summary, unchanged, that the
    Narrator and the Reporter are given. *)
Theorem summary_precedes_clustering (w : World) (st st1 st2 : State)
    (s : Summary) (r : ClusterResult) :
  get_data_summary w st = (inr s, st1) ->
  perform_clustering w 3 st1 = (inr r, st2) ->
  st1 = st /\
  total_columns s = df_width (df (self st)) /\
  map fst (column_types s) = df_columns (df (self st)) /\
  map fst (missing_values s) = df_columns (df (self st)) /\
  In "cluster" (df_columns (df (self st2))) /\
  (has_column (df (self st)) "cluster" = false ->
     ~ In "cluster" (map fst (column_types s)) /\
     ~ In "cluster" (map fst (missing_values s)) /\
     df_width (df (self st2)) = S (total_columns s)) /\
  run_analysis w st =
  (narrative <- generate_narrative w s r ;; save_results w s r narrative) st2.
Proof.
  intros Hs Hc.
  assert (Hst : st1 = st).
  { pose proof (get_data_summary_pure w st) as Hp. now rewrite Hs in Hp. }
  subst st1.
  assert (Hsum : total_columns s = df_width (df (self st)) /\
                 map fst (column_types s) = df_columns (df (self st)) /\
                 map fst (missing_values s) = df_columns (df (self st))).
  { rewrite get_data_summary_outcome in Hs.
    destruct (df (self st)) as [|nc rest] eqn:Hd; [discriminate|].
    inversion Hs; subst; simpl. unfold df_width, df_columns.
    rewrite !map_map, length_map. simpl. auto. }
  destruct Hsum as [Hcols [Htypes Hmiss]].
  assert (Hafter : In "cluster" (df_columns (df (self st2))) /\
                   df_width (df (self st2)) =
                   if has_column (df (self st)) "cluster" then df_width (df (self st))
                   else S (df_width (df (self st)))).
  { pose proof (perform_clustering_shape w 3 st) as [_ Hw].
    rewrite Hc in Hw. simpl in Hw. split; [|exact Hw].
    rewrite perform_clustering_outcome in Hc. cbv zeta in Hc.
    destruct (StandardScaler_fit_transform w _ _) as [e|X]; [discriminate|].
    destruct (KMeans_fit w 3 X _) as [e|fit]; [discriminate|].
    destruct (Nat.eqb _ _); [|discriminate].
    inversion Hc; subst. simpl. apply df_setitem_has. }
  destruct Hafter as [Hin Hw].
  repeat split; try assumption.
  - rewrite Htypes. intros Habs. apply has_column_In in Habs. congruence.
  - rewrite Hmiss. intros Habs. apply has_column_In in Habs. congruence.
  - rewrite Hw, H, Hcols. reflexivity.
  - unfold run_analysis. rewrite (bind_returns _ _ _ _ _ Hs).
    now rewrite (bind_returns _ _ _ _ _ Hc).
Qed.

Lemma summary_precedes_clustering_witness :
  let st := snd (init calm_world (fresh_instance "data.csv")) in
  exists s r st2,
    get_data_summary calm_world st = (inr s, st) /\
    perform_clustering calm_world 3 st = (inr r, st2) /\
    ~ In "cluster" (map fst (column_types s)) /\
    df_width (df (self st2)) = S (total_columns s).
Proof.
  cbv zeta.
  destruct (get_data_summary calm_world (snd (init calm_world (fresh_instance "data.csv"))))
    as [[e|s] st1] eqn:Hs; [vm_compute in Hs; discriminate|].
  destruct (perform_clustering calm_world 3 st1) as [[e|r] st2] eqn:Hc.
  - exfalso. vm_compute in Hs. inversion Hs; subst. vm_compute in Hc. discriminate.
  - destruct (summary_precedes_clustering calm_world _ st1 st2 s r Hs Hc)
      as [Hst [_ [_ [_ [_ [Hno _]]]]]].
    subst st1. exists s, r, st2.
    split; [reflexivity|]. split; [exact Hc|].
    destruct Hno as [H1 [_ H3]]; [vm_compute; reflexivity|]. auto.
Defined.

(* ===================================================================== *)
(** * The labels attached by the Clusterer *)
(* ===================================================================== *)

(** X18.  When [perform_clustering] returns, the column [cluster] of the
    table holds one label for each row, whatever the estimator computed. *)
Lemma perform_clustering_labels_every_row (w : World) (k : nat) (st st' : State)
    (r : ClusterResult) :
  perform_clustering w k st = (inr r, st') ->
  exists labels,
    df_getitem (df (self st')) "cluster" = Some (ColInt (map label_cell labels)) /\
    length labels = df_len (df (self st)).
Proof.
  rewrite perform_clustering_outcome. cbv zeta.
  destruct (StandardScaler_fit_transform w _ _) as [e|X]; [discriminate|].
  destruct (KMeans_fit w k X _) as [e|fit]; [discriminate|].
  destruct (Nat.eqb_spec (length (km_labels fit)) (df_len (df (self st)))) as [Hlen|_];
    [|discriminate].
  intros H. inversion H; subst. exists (km_labels fit). split; [|assumption].
  simpl. apply df_getitem_setitem.
Qed.

(* ===================================================================== *)
(** * The run as a whole *)
(* ===================================================================== *)

Lemma trace_grows_refl (st : State) : trace_grows st st.
Proof. exists []. now rewrite app_nil_r. Qed.

Lemma trace_grows_trans (st1 st2 st3 : State) :
  trace_grows st1 st2 -> trace_grows st2 st3 -> trace_grows st1 st3.
Proof.
  intros [t1 H1] [t2 H2]. exists (t1 ++ t2). now rewrite H2, H1, app_assoc.
Qed.

Lemma only_adds_grows (p : event -> bool) (st st' : State) :
  only_adds p st st' -> trace_grows st st'.
Proof. intros [_ [tr' [H _]]]. now exists tr'. Qed.

(** Preprocessing touches the table and nothing else. *)
Lemma preprocess_data_frame (w : World) (st : State) :
  exists d', snd (preprocess_data w st) = with_df st d'.
Proof.
  destruct st as [[p e d t] tr].
  unfold preprocess_data, bind, get_self, set_df, lift, raise, ret, with_df. simpl.
  destruct (df_getitem d "date"); simpl;
    destruct (SimpleImputer_fit_transform _ _); simpl;
    try destruct (Nat.eqb _ _); eexists; reflexivity.
Qed.

Lemma perform_clustering_frame (w : World) (k : nat) (st : State) :
  exists d', snd (perform_clustering w k st) = with_df st d' /\
             (forall e, fst (perform_clustering w k st) = inl e -> d' = df (self st)).
Proof.
  rewrite perform_clustering_outcome. cbv zeta.
  assert (Hst : st = with_df st (df (self st))) by now destruct st as [[p e d t] tr].
  destruct (StandardScaler_fit_transform w _ _) as [e|X];
    [exists (df (self st)); auto|].
  destruct (KMeans_fit w k X _) as [e|fit]; [exists (df (self st)); auto|].
  destruct (Nat.eqb _ _); [|exists (df (self st)); auto].
  eexists. split; [reflexivity|]. simpl. discriminate.
Qed.

(** The constructor, step by step. *)
Lemma init_unfold (w : World) (st : State) :
  init w st =
  match read_bytes w (dataset_path (self st)) with
  | inl e => (inl e, st)
  | inr raw =>
      let enc := detected_encoding w raw in
      let s1 := mkSelf (dataset_path (self st)) enc (df (self st)) (api_token (self st)) in
      match read_csv w (dataset_path (self st)) enc with
      | inl e0 =>
          (inl (ValueError ("Error loading dataset: " ++ exn_msg e0)),
           mkState s1 (trace st ++ [EvPrint ("Error loading dataset: " ++ exn_msg e0)]))
      | inr d =>
          let st2 :=
            mkState (mkSelf (dataset_path (self st)) enc d (api_token (self st)))
              (trace st ++
               [EvPrint ("Dataset loaded successfully with " ++ str_of_nat (df_len d)
                         ++ " rows and " ++ str_of_nat (df_width d) ++ " columns.")]) in
          match preprocess_data w st2 with
          | (inl e, st3) => (inl e, st3)
          | (inr _, st3) =>
              match getenv w "AIPROXY_TOKEN" with
              | Some (String c rest) =>
                  (inr tt,
                   mkState (mkSelf (dataset_path (self st3)) (encoding (self st3))
                              (df (self st3)) (String c rest)) (trace st3))
              | _ =>
                  (inl (EnvironmentError "AIPROXY_TOKEN environment variable is not set."),
                   st3)
              end
          end
      end
  end.
Proof.
  pose proof (detect_encoding_outcome w st) as Hd.
  destruct (read_bytes w (dataset_path (self st))) as [e|raw].
  - unfold init. apply (bind_raises _ _ _ _ _ Hd).
  - unfold init. rewrite (bind_returns _ _ _ _ _ Hd).
    unfold bind at 1, set_encoding at 1. cbv beta iota zeta.
    unfold bind at 1. rewrite load_dataset_outcome. simpl.
    destruct (read_csv w (dataset_path (self st)) (detected_encoding w raw)) as [e0|d];
      [reflexivity|].
    unfold bind at 1, set_df at 1. simpl.
    unfold bind at 1.
    destruct (preprocess_data w _) as [[e|[]] st3]; [reflexivity|].
    unfold bind, get_api_token, set_api_token.
    destruct (getenv w "AIPROXY_TOKEN") as [[|c rest]|]; reflexivity.
Qed.

Lemma init_grows (w : World) (st : State) : trace_grows st (snd (init w st)).
Proof.
  rewrite init_unfold.
  destruct (read_bytes w _) as [e|raw]; [apply trace_grows_refl|]. cbv zeta.
  destruct (read_csv w _ _) as [e0|d]; [eexists; reflexivity|].
  match goal with |- context [preprocess_data w ?s] =>
    destruct (preprocess_data_frame w s) as [d' Hd'];
    destruct (preprocess_data w s) as [[e|[]] st3] end;
    simpl in Hd'; subst st3.
  - eexists; reflexivity.
  - destruct (getenv w "AIPROXY_TOKEN") as [[|c rest]|]; eexists; reflexivity.
Qed.

(** [run_analysis], step by step. *)
Lemma run_analysis_unfold (w : World) (st : State) :
  run_analysis w st =
  match get_data_summary w st with
  | (inl e, _) => (inl e, st)
  | (inr s, _) =>
      match perform_clustering w 3 st with
      | (inl e, st1) => (inl e, st1)
      | (inr r, st2) =>
          match generate_narrative w s r st2 with
          | (inl e, st3) => (inl e, st3)
          | (inr text, st3) => save_results w s r text st3
          end
      end
  end.
Proof.
  unfold run_analysis.
  pose proof (get_data_summary_pure w st) as Hp.
  destruct (get_data_summary w st) as [[e|s] st0] eqn:Hs; simpl in Hp; subst st0.
  - apply (bind_raises _ _ _ _ _ Hs).
  - rewrite (bind_returns _ _ _ _ _ Hs). unfold bind.
    destruct (perform_clustering w 3 st) as [[e|r] st2]; [reflexivity|].
    destruct (generate_narrative w s r st2) as [[e|text] st3]; reflexivity.
Qed.

Lemma save_results_adds (w : World) (s : Summary) (r : ClusterResult) (n : string)
    (st : State) :
  only_adds is_report_event st (snd (save_results w s r n st)).
Proof.
  pose proof (save_results_outcome w s r n st) as H. cbv zeta in H.
  destruct (makedirs w _).
  - rewrite H. apply only_adds_refl.
  - destruct H as [st' [Hrun [Hadds _]]]. now rewrite Hrun.
Qed.

Lemma run_analysis_grows (w : World) (st : State) :
  trace_grows st (snd (run_analysis w st)).
Proof.
  rewrite run_analysis_unfold.
  destruct (get_data_summary w st) as [[e|s] st0]; [apply trace_grows_refl|].
  destruct (perform_clustering_frame w 3 st) as [d' [Hd' _]].
  destruct (perform_clustering w 3 st) as [[e|r] st2]; simpl in Hd'; subst st2.
  - eexists. simpl. symmetry. apply app_nil_r.
  - destruct (generate_narrative_one_request w s r (with_df st d'))
      as [text [st3 [Hrun [_ _]]]].
    pose proof (generate_narrative_is_body w s r (with_df st d')) as Hb.
    rewrite generate_narrative_body_returns in Hb. rewrite Hb. cbv zeta.
    destruct (chat_completion w _ s r) as [e|content];
      (eapply trace_grows_trans;
       [|apply (only_adds_grows is_report_event), save_results_adds]);
      simpl; eexists; rewrite <- ?app_assoc; reflexivity.
Qed.

Lemma main_unfold (w : World) (path : string) :
  exists msg,
    main w path =
    match init w (after_probe path msg) with
    | (inl e, st1) => (inl e, st1)
    | (inr _, st1) => run_analysis w st1
    end.
Proof.
  destruct (probe_proxy_outcome w (fresh_instance path)) as [msg Hp].
  exists msg. unfold main. rewrite (bind_returns _ _ _ _ _ Hp).
  unfold bind, after_probe. simpl.
  destruct (init w _) as [[e|[]] st1]; reflexivity.
Qed.

(** The run is the constructor and the analysis, started after the probe
    has printed its line, whatever the probe found. *)
Lemma main_after_probe (w : World) (path : string) :
  main w path =
  match init w (after_probe path (probe_message w)) with
  | (inl e, st1) => (inl e, st1)
  | (inr _, st1) => run_analysis w st1
  end.
Proof.
  unfold main, probe_proxy, probe_message, bind, emit, print, after_probe,
    fresh_instance.
  destruct (proxy_get w) as [e|code]; simpl;
    destruct (init w _) as [[e'|[]] st1]; reflexivity.
Qed.

(** X1.  Every run starts by contacting the proxy: whatever the path, the
    file, the token and the services, the first two events of a run are the
    GET on the proxy URL and the print of its outcome, the status code when
    the proxy answered and the error when it did not.  The probe decides
    nothing: reachable or not, the run is the constructor followed by the
    analysis, and ends as they end. *)
Theorem main_probes_proxy_first (w : World) (path : string) :
  (exists rest,
     trace (snd (main w path))
     = EvHttpGet proxy_url
       :: EvPrint match proxy_get w with
                  | inr code => "Proxy is reachable: " ++ str_of_nat code
                  | inl e => "Error reaching proxy: " ++ exn_msg e
                  end
       :: rest) /\
  main w path =
  match init w (after_probe path (probe_message w)) with
  | (inl e, st1) => (inl e, st1)
  | (inr _, st1) => run_analysis w st1
  end.
Proof.
  split; [|apply main_after_probe].
  rewrite main_after_probe. fold (probe_message w).
  pose proof (init_grows w (after_probe path (probe_message w))) as [t1 H1].
  destruct (init w (after_probe path (probe_message w))) as [[e|[]] st1];
    simpl in *.
  - exists t1. exact H1.
  - destruct (run_analysis_grows w st1) as [t2 H2].
    exists (t1 ++ t2). rewrite H2, H1. reflexivity.
Qed.

(** An unreachable proxy: the error is printed and the run goes on to its
    end. *)
Example main_proxy_down :
  let w := proxy_down_world in
  fst (main w "data.csv") = inr tt /\
  firstn 2 (trace (snd (main w "data.csv")))
  = [EvHttpGet proxy_url; EvPrint "Error reaching proxy: Connection refused"].
Proof. split; vm_compute; reflexivity. Qed.

(** X2.  Without the access token (unset or empty) a run ends with an
    exception and has neither asked for a narrative, nor created a folder,
    nor written anything. *)
Theorem main_without_token (w : World) (path : string) :
  getenv w "AIPROXY_TOKEN" = None \/ getenv w "AIPROXY_TOKEN" = Some EmptyString ->
  exists e,
    fst (main w path) = inl e /\
    chat_calls (trace (snd (main w path))) = 0 /\
    write_calls (trace (snd (main w path))) = 0 /\
    created_dirs (trace (snd (main w path))) = [].
Proof.
  intros Htok. destruct (main_unfold w path) as [msg Hm]. rewrite Hm.
  rewrite init_unfold. simpl.
  destruct (read_bytes w path) as [e|raw]; [eexists; repeat split; reflexivity|].
  destruct (read_csv w path (detected_encoding w raw)) as [e0|d];
    [eexists; repeat split; reflexivity|].
  match goal with |- context [preprocess_data w ?s] =>
    destruct (preprocess_data_frame w s) as [d' Hd'];
    destruct (preprocess_data w s) as [[e|[]] st3] end;
    simpl in Hd'; subst st3.
  - eexists; repeat split; reflexivity.
  - destruct Htok as [-> | ->]; eexists; repeat split; reflexivity.
Qed.

Lemma main_without_token_witness :
  getenv no_token_world "AIPROXY_TOKEN" = None /\
  exists e,
    fst (main no_token_world "data.csv") = inl e /\
    chat_calls (trace (snd (main no_token_world "data.csv"))) = 0 /\
    write_calls (trace (snd (main no_token_world "data.csv"))) = 0 /\
    created_dirs (trace (snd (main no_token_world "data.csv"))) = [].
Proof.
  split; [reflexivity|].
  apply (main_without_token no_token_world "data.csv"). left. reflexivity.
Defined.

(** The token is looked for last: in the world without token the file has
    been read and the table cleaned when [EnvironmentError] is raised. *)
Example no_token_run :
  fst (main no_token_world "data.csv")
  = inl (EnvironmentError "AIPROXY_TOKEN environment variable is not set.") /\
  last_event (trace (snd (main no_token_world "data.csv")))
  = Some (EvPrint "Dataset loaded successfully with 3 rows and 3 columns.") /\
  df_getitem (df (self (snd (main no_token_world "data.csv")))) "city"
  = Some (ColObject [Some "Pune"; Some "Unknown"; Some "Oslo"]).
Proof. repeat split; vm_compute; reflexivity. Qed.

(** X3.  [generate_narrative] never raises, in any world: it sends one
    request, never sleeps, and returns the text of the response stripped,
    or the fallback sentence when the request or the extraction raised;
    the instance is left as it is. *)
Theorem generate_narrative_never_raises (w : World) (s : Summary)
    (r : ClusterResult) (st : State) :
  exists st',
    generate_narrative w s r st =
    (inr match chat_completion w (chat_calls (trace st)) s r with
         | inr content => strip content
         | inl _ => fallback_narrative
         end, st') /\
    self st' = self st /\
    chat_calls (trace st') = S (chat_calls (trace st)) /\
    sleeps (trace st') = sleeps (trace st).
Proof.
  rewrite generate_narrative_is_body, generate_narrative_body_returns. cbv zeta.
  destruct (chat_completion w (chat_calls (trace st)) s r) as [e|content];
    eexists; (split; [reflexivity|]); simpl; (split; [reflexivity|]);
    (split; [unfold chat_calls; rewrite ?filter_app, ?length_app; simpl; lia|]);
    unfold sleeps; rewrite ?filter_app; simpl; now rewrite ?app_nil_r.
Qed.

(* ===================================================================== *)
(** * What makes [run_analysis] raise *)
(* ===================================================================== *)

Lemma with_df_path (st : State) (d : DataFrame) :
  dataset_path (self (with_df st d)) = dataset_path (self st).
Proof. reflexivity. Qed.

Lemma with_df_trace (st : State) (d : DataFrame) : trace (with_df st d) = trace st.
Proof. reflexivity. Qed.

(** After the clustering has returned, the rest of [run_analysis]: one
    request, then the report. *)
Lemma run_analysis_tail (w : World) (s : Summary) (r : ClusterResult)
    (st : State) (d' : DataFrame) :
  exists text st3,
    generate_narrative w s r (with_df st d') = (inr text, st3) /\
    dataset_path (self st3) = dataset_path (self st) /\
    chat_calls (trace st3) = S (chat_calls (trace st)) /\
    chat_calls (trace (snd (save_results w s r text st3))) = S (chat_calls (trace st)) /\
    (fst (save_results w s r text st3) = inr tt <->
     makedirs w (folder_name_of (dataset_path (self st))) = None).
Proof.
  destruct (generate_narrative_one_request w s r (with_df st d'))
    as [text [st3 [Hrun [Hself [Hchat _]]]]].
  exists text, st3. split; [exact Hrun|].
  assert (Hpath : dataset_path (self st3) = dataset_path (self st))
    by now rewrite Hself.
  split; [exact Hpath|]. split; [exact Hchat|]. split.
  - rewrite (only_adds_report_chat_calls _ _ (save_results_adds w s r text st3)).
    exact Hchat.
  - pose proof (save_results_outcome w s r text st3) as H. cbv zeta in H.
    rewrite Hpath in H.
    destruct (makedirs w (folder_name_of (dataset_path (self st)))) as [e|].
    + rewrite H. simpl. split; discriminate.
    + destruct H as [st' [Hs _]]. rewrite Hs. simpl. split; reflexivity.
Qed.

(** X4.  [run_analysis] returns exactly when the table has a column, the
    clustering returns, and the output folder can be created.  Neither the
    text-generation service nor a failure in opening, writing or closing
    README.md can make it raise. *)
Theorem run_analysis_returns_iff (w : World) (st : State) :
  fst (run_analysis w st) = inr tt <->
  df (self st) <> [] /\
  (exists r, fst (perform_clustering w 3 st) = inr r) /\
  makedirs w (folder_name_of (dataset_path (self st))) = None.
Proof.
  rewrite run_analysis_unfold, get_data_summary_outcome.
  destruct (df (self st)) as [|nc rest] eqn:Hd.
  - simpl. split; [discriminate | intros [H _]; now elim H].
  - destruct (perform_clustering_frame w 3 st) as [d' [Hd' _]].
    destruct (perform_clustering w 3 st) as [[e|r] st2]; simpl in Hd'; subst.
    + simpl. split; [discriminate | intros [_ [[r Hr] _]]; discriminate].
    + match goal with |- context [generate_narrative w ?s0 r _] =>
        destruct (run_analysis_tail w s0 r st d')
          as [text [st3 [Hrun [_ [_ [_ Hiff]]]]]] end.
      rewrite Hrun. rewrite Hiff. simpl. split.
      * intros H. split; [discriminate|]. split; [now exists r | exact H].
      * intros [_ [_ H]]. exact H.
Qed.

(** X5.  A run of [run_analysis] sends one request to the text-generation
    service when the summary and the clustering succeed, and none
    otherwise: never more than one. *)
Theorem run_analysis_requests (w : World) (st : State) :
  chat_calls (trace (snd (run_analysis w st))) =
  chat_calls (trace st) +
  match df (self st), fst (perform_clustering w 3 st) with
  | _ :: _, inr _ => 1
  | _, _ => 0
  end.
Proof.
  rewrite run_analysis_unfold, get_data_summary_outcome.
  destruct (df (self st)) as [|nc rest] eqn:Hd; [simpl; lia|].
  destruct (perform_clustering_frame w 3 st) as [d' [Hd' _]].
  destruct (perform_clustering w 3 st) as [[e|r] st2]; simpl in Hd'; subst.
  - simpl. lia.
  - match goal with |- context [generate_narrative w ?s0 r _] =>
      destruct (run_analysis_tail w s0 r st d')
        as [text [st3 [Hrun [_ [_ [Hchat _]]]]]] end.
    rewrite Hrun, Hchat. simpl. lia.
Qed.

(* ===================================================================== *)
(** * The effects of [save_results], event by event *)
(* ===================================================================== *)

(** The writes that succeed are the first chunks, in order. *)
Lemma write_all_trace (w : World) (chunks : list (list piece)) :
  forall (i : nat) (st : State),
    write_all w i chunks st =
    (match first_write_error w i (length chunks) with
     | Some e => inl e
     | None => inr tt
     end,
     mkState (self st)
       (trace st ++ map EvWrite (firstn (writes_done w i (length chunks)) chunks))).
Proof.
  induction chunks as [|chunk rest IH]; intros i st; simpl.
  - unfold ret. rewrite app_nil_r. now destruct st.
  - destruct (write_error w i) as [e|].
    + unfold raise. simpl. rewrite app_nil_r. now destruct st.
    + unfold bind, emit. simpl. rewrite IH. simpl.
      now rewrite <- app_assoc.
Qed.

Lemma with_open_trace (w : World) (path : string) (chunks : list (list piece))
    (st : State) :
  with_open w path (write_all w 0 chunks) st =
  (match first_report_failure w path (length chunks) with
   | Some e => inl e
   | None => inr tt
   end,
   mkState (self st) (trace st ++ report_file_events w path chunks)).
Proof.
  unfold with_open, first_report_failure, report_file_events.
  destruct (open_write w path) as [e|].
  - unfold raise. rewrite app_nil_r. now destruct st.
  - unfold bind, emit, try_except, raise, ret. simpl. rewrite write_all_trace. simpl.
    destruct (first_write_error w 0 (length chunks)); simpl;
      destruct (close_error w); simpl; rewrite <- !app_assoc; reflexivity.
Qed.

(** X6.  The effects of [save_results], in order: the folder is created;
    README.md is opened; the chunks of the report are written in their
    order up to the first write that fails, all of them when none fails;
    the file is closed whenever it was opened; one line is printed, the
    success line or the failure caught.  When the folder cannot be created
    nothing else happens. *)
Theorem save_results_trace (w : World) (s : Summary) (r : ClusterResult)
    (n : string) (st : State) :
  let folder := folder_name_of (dataset_path (self st)) in
  let chunks := report_chunks (dataset_path (self st)) s r n in
  trace (snd (save_results w s r n st)) =
  match makedirs w folder with
  | Some _ => trace st
  | None =>
      trace st
      ++ [EvMakedirs folder]
      ++ report_file_events w (folder ++ "/README.md") chunks
      ++ [EvPrint match first_report_failure w (folder ++ "/README.md") (length chunks) with
                  | None => report_saved
                  | Some e => "Error saving results: " ++ exn_msg e
                  end]
  end.
Proof.
  cbv zeta. unfold save_results, bind, get_self, os_makedirs, try_except, print, emit.
  cbv beta iota.
  destruct (makedirs w (folder_name_of (dataset_path (self st)))) as [e|];
    [reflexivity|].
  cbv beta iota. rewrite with_open_trace.
  destruct (first_report_failure w _ _); simpl; rewrite <- !app_assoc; reflexivity.
Qed.

(** The whole report is written when nothing fails. *)
Lemma report_file_events_complete (w : World) (path : string)
    (chunks : list (list piece)) :
  first_report_failure w path (length chunks) = None ->
  report_file_events w path chunks = (EvOpen path :: map EvWrite chunks) ++ [EvClose].
Proof.
  unfold first_report_failure, report_file_events.
  destruct (open_write w path); [discriminate|].
  intros H.
  assert (Hall : forall (l : list (list piece)) i,
                   first_write_error w i (length l) = None ->
                             firstn (writes_done w i (length l)) l = l).
  { induction l as [|c l IH]; intros i Hi; simpl in *; [reflexivity|].
    destruct (write_error w i); [discriminate|]. simpl. f_equal. now apply IH. }
  rewrite Hall; [reflexivity|].
  destruct (first_write_error w 0 (length chunks)); [|reflexivity].
  destruct (close_error w); discriminate.
Qed.

(** X7.  When no file operation fails, the report written is the whole
    report: the writes of [save_results] are exactly the chunks of
    [report_chunks], in order, between the opening and the closing, and
    the success line is printed. *)
Theorem save_results_complete (w : World) (s : Summary) (r : ClusterResult)
    (n : string) (st : State) :
  makedirs w (folder_name_of (dataset_path (self st))) = None ->
  first_report_failure w (folder_name_of (dataset_path (self st)) ++ "/README.md")
    (length (report_chunks (dataset_path (self st)) s r n)) = None ->
  trace (snd (save_results w s r n st)) =
  trace st
  ++ [EvMakedirs (folder_name_of (dataset_path (self st)));
      EvOpen (folder_name_of (dataset_path (self st)) ++ "/README.md")]
  ++ map EvWrite (report_chunks (dataset_path (self st)) s r n)
  ++ [EvClose; EvPrint report_saved].
Proof.
  intros Hmk Hok.
  unfold save_results, bind, get_self, os_makedirs, try_except, print, emit.
  cbv beta iota. rewrite Hmk. cbv beta iota. rewrite with_open_trace.
  rewrite Hok, (report_file_events_complete w _ _ Hok).
  set (chunks := report_chunks (dataset_path (self st)) s r n).
  cbn [snd trace]. rewrite <- !app_assoc. reflexivity.
Qed.

Lemma save_results_complete_witness :
  makedirs calm_world (folder_name_of "data.csv") = None /\
  first_report_failure calm_world (folder_name_of "data.csv" ++ "/README.md")
    (length (report_chunks "data.csv" sample_summary sample_results "text")) = None /\
  trace (snd (save_results calm_world sample_summary sample_results "text"
                (instance_of "data.csv" sales_table))) =
  [EvMakedirs "data"; EvOpen "data/README.md"]
  ++ map EvWrite (report_chunks "data.csv" sample_summary sample_results "text")
  ++ [EvClose; EvPrint report_saved].
Proof.
  split; [reflexivity|]. split; [reflexivity|].
  apply (save_results_complete calm_world sample_summary sample_results "text"
           (instance_of "data.csv" sales_table)); reflexivity.
Defined.

(* ===================================================================== *)
(** * The output folder *)
(* ===================================================================== *)

Lemma folder_name_of_cons (c : ascii) (rest : string) :
  folder_name_of (String c rest) =
  if Ascii.eqb c "." then EmptyString else String c (folder_name_of rest).
Proof.
  unfold folder_name_of. simpl.
  destruct (Ascii.eqb c "."); [reflexivity|].
  destruct (split_on "." rest); reflexivity.
Qed.

(** X8.  The output folder is the text of the dataset path before its first
    dot: it holds no dot, the path is the folder followed by nothing or by
    a dot and the rest, and a path without dot is its own folder (the
    folder then has the name of the dataset file itself). *)
Theorem folder_name_before_first_dot (p : string) :
  contains_char "." (folder_name_of p) = false /\
  (p = folder_name_of p \/
   exists rest, p = (folder_name_of p ++ String "." rest)%string) /\
  (contains_char "." p = false -> folder_name_of p = p).
Proof.
  induction p as [|c p [IH1 [IH2 IH3]]].
  - repeat split; auto.
  - rewrite folder_name_of_cons. simpl.
    destruct (Ascii.eqb_spec c ".") as [->|Hne].
    + repeat split; [right; now exists p | discriminate].
    + simpl. apply Ascii.eqb_neq in Hne. rewrite Hne. simpl.
      repeat split; [assumption | | intros H; now rewrite IH3].
      destruct IH2 as [H|[rest H]].
      * left. now rewrite <- H.
      * right. exists rest. simpl. now rewrite <- H.
Qed.

(* ===================================================================== *)
(** * The narrative is trimmed *)
(* ===================================================================== *)

Lemma string_app_assoc (a b c : string) : ((a ++ b) ++ c = a ++ (b ++ c))%string.
Proof. induction a as [|x a IH]; simpl; [reflexivity | now rewrite IH]. Qed.

Lemma string_app_nil_r (a : string) : (a ++ EmptyString = a)%string.
Proof. induction a as [|x a IH]; simpl; [reflexivity | now rewrite IH]. Qed.

Lemma string_rev_onto_spec (s acc : string) :
  string_rev_onto s acc = (string_rev s ++ acc)%string.
Proof.
  revert acc. induction s as [|c s IH]; intros acc; [reflexivity|].
  unfold string_rev. simpl. rewrite IH, (IH (String c EmptyString)).
  now rewrite string_app_assoc.
Qed.

Lemma string_rev_cons (c : ascii) (s : string) :
  string_rev (String c s) = (string_rev s ++ String c EmptyString)%string.
Proof. unfold string_rev at 1. simpl. apply string_rev_onto_spec. Qed.

Lemma string_rev_app (a b : string) :
  string_rev (a ++ b) = (string_rev b ++ string_rev a)%string.
Proof.
  induction a as [|c a IH]; simpl.
  - now rewrite string_app_nil_r.
  - now rewrite !string_rev_cons, IH, string_app_assoc.
Qed.

Lemma string_rev_involutive (s : string) : string_rev (string_rev s) = s.
Proof.
  induction s as [|c s IH]; [reflexivity|].
  now rewrite string_rev_cons, string_rev_app, IH.
Qed.

Lemma string_length_ind (P : string -> Prop) :
  (forall s, (forall t, String.length t < String.length s -> P t) -> P s) ->
  forall s, P s.
Proof.
  intros H s. remember (String.length s) as n eqn:E. revert s E.
  induction n as [n IH] using lt_wf_ind. intros s ->.
  apply H. intros t Ht. exact (IH _ Ht t eq_refl).
Qed.

(** The first byte of a two-byte whitespace character is not itself a
    whitespace character. *)
Lemma is_space2_lead (a b : ascii) : is_space2 a b = true -> is_space a = false.
Proof.
  unfold is_space2, is_space. cbv zeta. intros H.
  apply andb_true_iff in H. destruct H as [H _].
  apply Nat.eqb_eq in H. now rewrite H.
Qed.

(** Nor is the first byte of a three-byte one, which does not start a
    two-byte one either. *)
Lemma is_space3_lead (a b c : ascii) :
  is_space3 a b c = true -> is_space a = false /\ is_space2 a b = false.
Proof.
  intros H.
  assert (Hx : nat_of_ascii a = 225 \/ nat_of_ascii a = 226 \/ nat_of_ascii a = 227).
  { unfold is_space3 in H. cbv zeta in H.
    repeat (apply orb_true_iff in H; destruct H as [H|H]);
      repeat (apply andb_true_iff in H; destruct H as [H _]);
      apply Nat.eqb_eq in H; auto. }
  unfold is_space, is_space2. cbv zeta.
  destruct Hx as [-> | [-> | ->]]; split; reflexivity.
Qed.

(** Whitespace followed by whitespace is whitespace. *)
Lemma all_space_app (p q : string) :
  all_space p = true -> all_space q = true -> all_space (p ++ q) = true.
Proof.
  induction p as [p IH] using string_length_ind. intros Hp Hq.
  destruct p as [|a r1]; [exact Hq|].
  cbn [all_space append] in *. destruct (is_space a).
  - apply IH; [simpl; lia | assumption..].
  - destruct r1 as [|b r2]; [discriminate|].
    cbn [append]. destruct (is_space2 a b).
    + apply IH; [simpl; lia | assumption..].
    + destruct r2 as [|c r3]; [discriminate|].
      cbn [append]. apply andb_true_iff in Hp. destruct Hp as [Hc Hr].
      rewrite Hc. apply IH; [simpl; lia | assumption..].
Qed.

(** A string that starts with whitespace still does when it is extended. *)
Lemma starts_with_space_app (p q : string) :
  starts_with_space p = true -> starts_with_space (p ++ q) = true.
Proof.
  destruct p as [|a [|b [|c r]]]; simpl; try discriminate.
  - rewrite orb_false_r. now intros ->.
  - rewrite orb_false_r. intros H.
    destruct (is_space a); [reflexivity|]. simpl in *. now rewrite H.
  - auto.
Qed.

(** Whitespace read backwards is whitespace. *)
Lemma all_space_backwards_rev (x : string) :
  all_space_backwards x = true -> all_space (string_rev x) = true.
Proof.
  induction x as [x IH] using string_length_ind. intros H.
  destruct x as [|a r1]; [reflexivity|].
  cbn [all_space_backwards] in H. rewrite string_rev_cons.
  destruct (is_space a) eqn:Ha.
  - apply all_space_app; [apply IH; [simpl; lia | exact H]|].
    simpl. now rewrite Ha.
  - destruct r1 as [|b r2]; [discriminate|].
    rewrite string_rev_cons, string_app_assoc.
    destruct (is_space2 b a) eqn:Hba.
    + apply all_space_app; [apply IH; [simpl; lia | exact H]|].
      simpl. now rewrite (is_space2_lead b a Hba), Hba.
    + destruct r2 as [|c r3]; [discriminate|].
      apply andb_true_iff in H. destruct H as [Hcba Hr].
      rewrite string_rev_cons, string_app_assoc.
      apply all_space_app; [apply IH; [simpl; lia | exact Hr]|].
      destruct (is_space3_lead c b a Hcba) as [Hc Hcb].
      simpl. now rewrite Hc, Hcb, Hcba.
Qed.

(** [lstrip] removes a run of whitespace characters and stops at the first
    other character. *)
Lemma lstrip_spec (s : string) :
  exists a, s = (a ++ lstrip s)%string /\ all_space a = true /\
            starts_with_space (lstrip s) = false.
Proof.
  induction s as [s IH] using string_length_ind.
  destruct s as [|a r1]; [exists EmptyString; auto|].
  cbn [lstrip]. destruct (is_space a) eqn:Ha.
  - destruct (IH r1) as [p [Hs [Hp Hl]]]; [simpl; lia|].
    exists (String a p). split; [simpl; now f_equal|].
    split; [simpl; now rewrite Ha | exact Hl].
  - destruct r1 as [|b r2].
    + exists EmptyString. repeat split. simpl. now rewrite Ha.
    + destruct (is_space2 a b) eqn:Hab.
      * destruct (IH r2) as [p [Hs [Hp Hl]]]; [simpl; lia|].
        exists (String a (String b p)). split; [simpl; now do 2 f_equal|].
        split; [simpl; now rewrite Ha, Hab | exact Hl].
      * destruct r2 as [|c r3].
        -- exists EmptyString. repeat split. simpl. now rewrite Ha, Hab.
        -- destruct (is_space3 a b c) eqn:Habc.
           ++ destruct (IH r3) as [p [Hs [Hp Hl]]]; [simpl; lia|].
              exists (String a (String b (String c p))).
              split; [simpl; now do 3 f_equal|].
              split; [simpl; now rewrite Ha, Hab, Habc | exact Hl].
           ++ exists EmptyString. repeat split. simpl. now rewrite Ha, Hab, Habc.
Qed.

(** The same, on a string read backwards. *)
Lemma lstrip_backwards_spec (s : string) :
  exists a, s = (a ++ lstrip_backwards s)%string /\
            all_space_backwards a = true /\
            starts_with_space_backwards (lstrip_backwards s) = false.
Proof.
  induction s as [s IH] using string_length_ind.
  destruct s as [|a r1]; [exists EmptyString; auto|].
  cbn [lstrip_backwards]. destruct (is_space a) eqn:Ha.
  - destruct (IH r1) as [p [Hs [Hp Hl]]]; [simpl; lia|].
    exists (String a p). split; [simpl; now f_equal|].
    split; [simpl; now rewrite Ha | exact Hl].
  - destruct r1 as [|b r2].
    + exists EmptyString. repeat split. simpl. now rewrite Ha.
    + destruct (is_space2 b a) eqn:Hab.
      * destruct (IH r2) as [p [Hs [Hp Hl]]]; [simpl; lia|].
        exists (String a (String b p)). split; [simpl; now do 2 f_equal|].
        split; [simpl; now rewrite Ha, Hab | exact Hl].
      * destruct r2 as [|c r3].
        -- exists EmptyString. repeat split. simpl. now rewrite Ha, Hab.
        -- destruct (is_space3 c b a) eqn:Habc.
           ++ destruct (IH r3) as [p [Hs [Hp Hl]]]; [simpl; lia|].
              exists (String a (String b (String c p))).
              split; [simpl; now do 3 f_equal|].
              split; [simpl; now rewrite Ha, Hab, Habc | exact Hl].
           ++ exists EmptyString. repeat split. simpl. now rewrite Ha, Hab, Habc.
Qed.

(** [strip] removes whitespace characters at both ends and nothing else. *)
Lemma strip_spec (s : string) :
  exists a b,
    s = (a ++ strip s ++ b)%string /\
    all_space a = true /\ all_space b = true /\
    starts_with_space (strip s) = false /\
    ends_with_space (strip s) = false.
Proof.
  destruct (lstrip_spec s) as [a [Hs [Ha Ht]]].
  destruct (lstrip_backwards_spec (string_rev (lstrip s))) as [b' [Hr [Hb Hu]]].
  unfold strip. set (u := lstrip_backwards (string_rev (lstrip s))) in *.
  assert (Ht' : lstrip s = (string_rev u ++ string_rev b')%string).
  { rewrite <- (string_rev_involutive (lstrip s)), Hr. apply string_rev_app. }
  exists a, (string_rev b'). split; [|split; [|split; [|split]]].
  - now rewrite <- Ht'.
  - exact Ha.
  - now apply all_space_backwards_rev.
  - rewrite Ht' in Ht.
    destruct (starts_with_space (string_rev u)) eqn:E; [|reflexivity].
    now rewrite (starts_with_space_app _ (string_rev b') E) in Ht.
  - unfold ends_with_space. now rewrite string_rev_involutive.
Qed.

(** Two characters outside ASCII that [strip] removes: a no-break space
    (U+00A0, bytes C2 A0) before the text and an ideographic space (U+3000,
    bytes E3 80 80) after it. *)
Example strip_unicode_spaces :
  strip (String (ascii_of_nat 194) (String (ascii_of_nat 160)
           ("ok" ++ String (ascii_of_nat 227) (String (ascii_of_nat 128)
                      (String (ascii_of_nat 128) EmptyString)))))
  = "ok".
Proof. reflexivity. Qed.

(** X9.  When the service answers, the narrative that [generate_narrative]
    returns is the text of the answer without the whitespace at its two
    ends: it neither starts nor ends with a whitespace character, and what
    was removed on either side is whitespace only. *)
Theorem narrative_is_trimmed (w : World) (s : Summary) (r : ClusterResult)
    (st : State) (content : string) :
  chat_completion w (chat_calls (trace st)) s r = inr content ->
  exists text st' a b,
    generate_narrative w s r st = (inr text, st') /\
    content = (a ++ text ++ b)%string /\
    all_space a = true /\ all_space b = true /\
    starts_with_space text = false /\
    ends_with_space text = false.
Proof.
  intros Hc. rewrite generate_narrative_is_body, generate_narrative_body_returns.
  cbv zeta. rewrite Hc.
  destruct (strip_spec content) as [a [b H]].
  exists (strip content). eexists. exists a, b. split; [reflexivity | exact H].
Qed.

Lemma narrative_is_trimmed_witness :
  exists text st' a b,
    generate_narrative calm_world sample_summary sample_results
      (instance_of "data.csv" sales_table) = (inr text, st') /\
    (" Three groups of cities. " ++ nl)%string = (a ++ text ++ b)%string /\
    all_space a = true /\ all_space b = true /\
    starts_with_space text = false /\
    ends_with_space text = false.
Proof.
  apply (narrative_is_trimmed calm_world sample_summary sample_results
           (instance_of "data.csv" sales_table)).
  reflexivity.
Defined.

Example narrative_of_calm_world :
  fst (generate_narrative calm_world sample_summary sample_results
         (instance_of "data.csv" sales_table))
  = inr "Three groups of cities.".
Proof. reflexivity. Qed.

(* ===================================================================== *)
(** * Preprocessing, column by column *)
(* ===================================================================== *)

Lemma df_getitem_setitem_other (d : DataFrame) (k n : string) (v : column) :
  n <> k -> df_getitem (df_setitem d k v) n = df_getitem d n.
Proof.
  intros Hne. induction d as [|[n0 c0] rest IH]; simpl.
  - destruct (String.eqb_spec k n); [congruence | reflexivity].
  - destruct (String.eqb_spec n0 k) as [->|Hk]; simpl.
    + destruct (String.eqb_spec k n); [congruence | reflexivity].
    + now rewrite IH.
Qed.

Lemma df_getitem_In (d : DataFrame) (n : string) (c : column) :
  df_getitem d n = Some c -> In (n, c) d.
Proof.
  induction d as [|[n0 c0] rest IH]; simpl; [discriminate|].
  destruct (String.eqb_spec n0 n) as [->|Hne]; intros H.
  - inversion H. now left.
  - right. now apply IH.
Qed.

Lemma In_df_getitem (d : DataFrame) (n : string) (c : column) :
  NoDup (df_columns d) -> In (n, c) d -> df_getitem d n = Some c.
Proof.
  induction d as [|[n0 c0] rest IH]; simpl; intros Hnd Hin; [contradiction|].
  inversion Hnd as [|? ? Hn Hrest]; subst.
  destruct Hin as [Heq|Hin].
  - inversion Heq; subst. now rewrite String.eqb_refl.
  - destruct (String.eqb_spec n0 n) as [->|Hne]; [|auto].
    exfalso. apply Hn. unfold df_columns. apply in_map_iff. now exists (n, c).
Qed.

Lemma df_getitem_convert_date (w : World) (d : DataFrame) (n : string) :
  df_getitem (convert_date w d) n =
  if String.eqb n "date" then option_map (to_datetime w) (df_getitem d "date")
  else df_getitem d n.
Proof.
  unfold convert_date.
  destruct (String.eqb_spec n "date") as [->|Hne].
  - destruct (df_getitem d "date") as [c|] eqn:E; simpl.
    + apply df_getitem_setitem.
    + exact E.
  - destruct (df_getitem d "date") as [c|]; [|reflexivity].
    now apply df_getitem_setitem_other.
Qed.


Lemma df_getitem_filled_table (w : World) (d : DataFrame) (n : string) :
  df_getitem (filled_table w d) n =
  option_map (fillna "Unknown") (df_getitem (convert_date w d) n).
Proof. unfold filled_table. apply df_getitem_map_columns. Qed.





(* ===================================================================== *)
(** * When preprocessing raises *)
(* ===================================================================== *)

Lemma check_array_returns (X : list (list float64)) (n : nat) :
  check_array X n = inr tt <-> X <> [] /\ all_finite X = true /\ n <> 0.
Proof.
  split; [apply check_array_passes|].
  intros [HX [Hfin Hn]]. rewrite (check_array_outcome X n HX Hn). now rewrite Hfin.
Qed.

Lemma check_array_raises_ValueError (X : list (list float64)) (n : nat) (e : exn) :
  check_array X n = inl e -> exn_class e = "ValueError".
Proof.
  unfold check_array. destruct (Nat.eqb (length X) 0); [intros H; now inversion H|].
  destruct (negb (all_finite X)); [intros H; now inversion H|].
  destruct (Nat.eqb n 0); intros H; now inversion H.
Qed.

Lemma numeric_matrix_nonempty (d : DataFrame) :
  numeric_matrix d <> [] <-> exists n c, In (n, c) d /\ is_number c = true.
Proof.
  unfold numeric_matrix, select_dtypes. split.
  - intros H. induction d as [|[n c] rest IH]; simpl in H; [now elim H|].
    destruct (DNumber (col_dtype c)) eqn:Hc.
    + exists n, c. split; [now left | exact Hc].
    + destruct (IH H) as [n0 [c0 [H0 H1]]]. exists n0, c0. split; [now right | exact H1].
  - intros [n [c [Hin Hc]]]. induction d as [|[n0 c0] rest IH]; [contradiction|].
    simpl. destruct Hin as [Heq|Hin].
    + inversion Heq; subst. unfold is_number in Hc. rewrite Hc. discriminate.
    + destruct (DNumber (col_dtype c0)); simpl; [discriminate | auto].
Qed.

Lemma all_finite_iff (d : DataFrame) :
  all_finite (numeric_matrix d) = true <->
  forall n c, In (n, c) d -> is_number c = true -> column_finite c = true.
Proof.
  split.
  - intros H n c Hin _. exact (all_finite_In d H n c Hin).
  - intros H. unfold all_finite, numeric_matrix, select_dtypes.
    apply forallb_forall. intros x Hx.
    apply in_map_iff in Hx. destruct Hx as [[n c] [<- Hin]].
    apply filter_In in Hin. destruct Hin as [Hin Hc].
    exact (H n c Hin Hc).
Qed.

(** The numeric columns after the date and text steps are the numeric
    columns of the table, the [date] column apart. *)
Lemma filled_table_numeric (w : World) (d : DataFrame) (n : string) (c : column) :
  NoDup (df_columns d) ->
  is_number c = true ->
  In (n, c) (filled_table w d) <-> n <> "date" /\ In (n, c) d.
Proof.
  intros Hnd Hc.
  assert (Hnd' : NoDup (df_columns (filled_table w d)))
    by now rewrite filled_table_columns.
  split.
  - intros Hin. pose proof (In_df_getitem _ _ _ Hnd' Hin) as Hget.
    rewrite df_getitem_filled_table, df_getitem_convert_date in Hget.
    destruct (String.eqb_spec n "date") as [->|Hne].
    + destruct (df_getitem d "date") as [c0|]; [|discriminate].
      simpl in Hget. inversion Hget; subst. destruct c0; discriminate.
    + split; [assumption|].
      destruct (df_getitem d n) as [c0|] eqn:E; [|discriminate].
      apply df_getitem_In. rewrite E. simpl in Hget. inversion Hget; subst.
      destruct c0; try discriminate; reflexivity.
  - intros [Hne Hin]. apply df_getitem_In.
    rewrite df_getitem_filled_table, df_getitem_convert_date.
    apply String.eqb_neq in Hne. rewrite Hne.
    rewrite (In_df_getitem _ _ _ Hnd Hin). simpl.
    destruct c; try discriminate; reflexivity.
Qed.

Lemma col_imputable_number (c : column) :
  is_number c = true ->
  col_imputable c = true <-> observed (float_cells c) <> [].
Proof.
  intros Hc. unfold col_imputable, impute_column. rewrite Hc.
  destruct (masked_median (float_cells c)) as [m|] eqn:E.
  - split; [|reflexivity]. intros _ Hobs.
    unfold masked_median in E. rewrite Hobs in E. discriminate.
  - apply masked_median_none in E. split; [discriminate | contradiction].
Qed.

Lemma imputable_iff (d : DataFrame) :
  imputable d = true <->
  forall n c, In (n, c) d -> is_number c = true -> observed (float_cells c) <> [].
Proof.
  unfold imputable. rewrite forallb_forall. split.
  - intros H n c Hin Hc. apply (col_imputable_number c Hc). exact (H (n, c) Hin).
  - intros H [n c] Hin. simpl. destruct (is_number c) eqn:Hc.
    + apply (col_imputable_number c Hc). exact (H n c Hin Hc).
    + unfold col_imputable. now rewrite Hc.
Qed.

(** X12.  Preprocessing returns exactly when the table has at least one
    row and a numeric column other than [date], and every such column has
    no infinite cell and at least one cell that is not NaN.  Whenever it
    raises, it raises a [ValueError]. *)
Theorem preprocess_data_returns_iff (w : World) (st : State) :
  unique_labels (df_columns (df (self st))) = true ->
  (fst (preprocess_data w st) = inr tt <->
   df_len (df (self st)) <> 0 /\
   (exists n c, n <> "date" /\ In (n, c) (df (self st)) /\ is_number c = true) /\
   (forall n c, n <> "date" -> In (n, c) (df (self st)) -> is_number c = true ->
      column_finite c = true /\ observed (float_cells c) <> []))
  /\ (forall e, fst (preprocess_data w st) = inl e -> exn_class e = "ValueError").
Proof.
  intros Hu. apply unique_labels_NoDup in Hu.
  rewrite (preprocess_data_spec w st Hu). cbv zeta.
  pose proof (check_array_returns (numeric_matrix (filled_table w (df (self st))))
                (df_len (filled_table w (df (self st))))) as Hchk.
  pose proof (check_array_raises_ValueError
                (numeric_matrix (filled_table w (df (self st))))
                (df_len (filled_table w (df (self st))))) as Hcls.
  rewrite filled_table_len in *.
  rewrite numeric_matrix_nonempty, all_finite_iff in Hchk.
  pose proof (imputable_iff (filled_table w (df (self st)))) as Himp.
  assert (Hnum : forall n c, is_number c = true ->
            In (n, c) (filled_table w (df (self st))) <->
            n <> "date" /\ In (n, c) (df (self st)))
    by (intros n c Hc; now apply filled_table_numeric).
  destruct (check_array _ _) as [e|[]].
  - split.
    + split; [discriminate|]. intros [Hlen [[n [c [Hne [Hin Hc]]]] Hall]].
      assert (H : inl e = inr tt :> result unit); [|discriminate].
      apply Hchk. split; [|split; [|assumption]].
      * exists n, c. split; [apply Hnum; auto | assumption].
      * intros n0 c0 Hin0 Hc0. apply (Hnum n0 c0 Hc0) in Hin0.
        destruct Hin0 as [Hne0 Hin0]. now apply (Hall n0 c0).
    + simpl. intros e0 H. inversion H; subst. now apply Hcls.
  - destruct (proj1 Hchk eq_refl) as [[n [c [Hin Hc]]] [Hfin Hlen]].
    apply (Hnum n c Hc) in Hin.
    destruct (imputable (filled_table w (df (self st)))) eqn:Hi; simpl.
    + split; [|discriminate]. split; [|reflexivity]. intros _.
      split; [assumption|]. split; [exists n, c; tauto|].
      intros n0 c0 Hne0 Hin0 Hc0.
      assert (Hin1 : In (n0, c0) (filled_table w (df (self st))))
        by (apply Hnum; auto).
      split; [exact (Hfin n0 c0 Hin1 Hc0) | exact (proj1 Himp eq_refl n0 c0 Hin1 Hc0)].
    + split.
      * split; [discriminate|]. intros [_ [_ Hall]].
        assert (H : false = true); [|discriminate].
        apply Himp. intros n0 c0 Hin0 Hc0.
        apply (Hnum n0 c0 Hc0) in Hin0. destruct Hin0 as [Hne0 Hin0].
        now apply (Hall n0 c0).
      * intros e0 H. inversion H. reflexivity.
Qed.

Lemma preprocess_data_returns_iff_witness :
  unique_labels (df_columns sales_table) = true /\
  (fst (preprocess_data calm_world (instance_of "data.csv" sales_table)) = inr tt <->
   df_len sales_table <> 0 /\
   (exists n c, n <> "date" /\ In (n, c) sales_table /\ is_number c = true) /\
   (forall n c, n <> "date" -> In (n, c) sales_table -> is_number c = true ->
      column_finite c = true /\ observed (float_cells c) <> [])).
Proof.
  split; [reflexivity|].
  apply (preprocess_data_returns_iff calm_world (instance_of "data.csv" sales_table)).
  reflexivity.
Defined.

(** A numeric column without any observed value makes preprocessing
    raise. *)
Example preprocess_all_missing_column :
  fst (preprocess_data calm_world
         (instance_of "data.csv"
            [("sales", ColFloat [float_of_int 1; nan]); ("tax", ColFloat [nan; nan])]))
  = inl (ValueError "Columns must be same length as key").
Proof. vm_compute. reflexivity. Qed.

(** So does an infinite cell, which [read_csv] gives for the text [inf]. *)
Example preprocess_infinite_cell :
  fst (preprocess_data calm_world
         (instance_of "data.csv"
            [("sales", ColFloat [float_of_int 1; S754_infinity false])]))
  = inl infinity_error.
Proof. vm_compute. reflexivity. Qed.

(* ===================================================================== *)
(** * C6: what the Clusterer returns *)
(* ===================================================================== *)




(* ===================================================================== *)
(** * The table stays a table *)
(* ===================================================================== *)

Lemma rectangular_lens (d : DataFrame) :
  rectangular d =
  forallb (fun l => Nat.eqb l (hd 0 (map (fun nc => col_len (snd nc)) d)))
    (map (fun nc => col_len (snd nc)) d).
Proof.
  unfold rectangular.
  assert (Hlen : df_len d = hd 0 (map (fun nc => col_len (snd nc)) d))
    by now destruct d as [|[n c] rest].
  rewrite Hlen. clear Hlen.
  generalize (hd 0 (map (fun nc => col_len (snd nc)) d)). intros k.
  induction d as [|[n c] rest IH]; simpl; [reflexivity | now rewrite IH].
Qed.

Lemma rectangular_same_lens (d d' : DataFrame) :
  map (fun nc => col_len (snd nc)) d' = map (fun nc => col_len (snd nc)) d ->
  rectangular d' = rectangular d.
Proof. intros H. now rewrite !rectangular_lens, H. Qed.

Lemma map_columns_lens (f : column -> column) (d : DataFrame) :
  (forall c, col_len (f c) = col_len c) ->
  map (fun nc => col_len (snd nc)) (map_columns f d)
  = map (fun nc => col_len (snd nc)) d.
Proof.
  intros H. unfold map_columns. rewrite map_map. apply map_ext.
  intros [n c]. simpl. apply H.
Qed.

Lemma df_setitem_lens (d : DataFrame) (k : string) (c v : column) :
  df_getitem d k = Some c -> col_len v = col_len c ->
  map (fun nc => col_len (snd nc)) (df_setitem d k v)
  = map (fun nc => col_len (snd nc)) d.
Proof.
  induction d as [|[n c0] rest IH]; simpl; [discriminate|].
  destruct (String.eqb n k); simpl; intros Hget Hlen.
  - inversion Hget; subst. now rewrite Hlen.
  - f_equal. now apply IH.
Qed.

Lemma convert_date_lens (w : World) (d : DataFrame) :
  map (fun nc => col_len (snd nc)) (convert_date w d)
  = map (fun nc => col_len (snd nc)) d.
Proof.
  unfold convert_date. destruct (df_getitem d "date") as [c|] eqn:E; [|reflexivity].
  apply (df_setitem_lens d "date" c); [assumption | apply to_datetime_shape].
Qed.

Lemma filled_table_lens (w : World) (d : DataFrame) :
  map (fun nc => col_len (snd nc)) (filled_table w d)
  = map (fun nc => col_len (snd nc)) d.
Proof.
  unfold filled_table. rewrite map_columns_lens by (intros c; apply fillna_shape).
  apply convert_date_lens.
Qed.

Lemma clean_table_lens (w : World) (d : DataFrame) :
  map (fun nc => col_len (snd nc)) (clean_table w d)
  = map (fun nc => col_len (snd nc)) d.
Proof.
  unfold clean_table. rewrite map_columns_lens by (intros c; apply impute_or_keep_len).
  apply filled_table_lens.
Qed.

Lemma df_setitem_columns_In (d : DataFrame) (k x : string) (v : column) :
  In x (df_columns (df_setitem d k v)) -> x = k \/ In x (df_columns d).
Proof.
  induction d as [|[n c] rest IH]; simpl.
  - intros [H|[]]. now left.
  - destruct (String.eqb n k); simpl.
    + intros [H|H]; right; [now left | now right].
    + intros [H|H]; [right; now left|].
      destruct (IH H); [now left | right; now right].
Qed.

Lemma df_setitem_NoDup (d : DataFrame) (k : string) (v : column) :
  NoDup (df_columns d) -> NoDup (df_columns (df_setitem d k v)).
Proof.
  induction d as [|[n c] rest IH]; simpl; intros Hnd.
  - constructor; [intros [] | constructor].
  - inversion Hnd as [|? ? Hn Hrest]; subst.
    destruct (String.eqb_spec n k) as [->|Hne]; simpl.
    + now constructor.
    + constructor; [|auto]. intros Hin.
      apply df_setitem_columns_In in Hin. destruct Hin; [congruence | contradiction].
Qed.

Lemma df_setitem_rectangular (d : DataFrame) (k : string) (v : column) :
  rectangular d = true -> col_len v = df_len d ->
  rectangular (df_setitem d k v) = true.
Proof.
  intros Hr Hlen. unfold rectangular in *. rewrite (df_setitem_len d k v Hlen).
  revert Hr Hlen. generalize (df_len d). intros m Hr Hlen.
  induction d as [|[n c] rest IH]; simpl in *.
  - now rewrite Hlen, Nat.eqb_refl.
  - apply andb_true_iff in Hr. destruct Hr as [Hc Hrest].
    destruct (String.eqb n k); simpl.
    + now rewrite Hlen, Nat.eqb_refl, Hrest.
    + now rewrite Hc, IH.
Qed.

(** X13.  A well-formed table (distinct labels, columns of one length)
    stays well-formed through preprocessing and through clustering,
    whether they return or raise. *)
Theorem table_stays_well_formed (w : World) (st : State) :
  well_formed (df (self st)) = true ->
  well_formed (df (self (snd (preprocess_data w st)))) = true /\
  forall k, well_formed (df (self (snd (perform_clustering w k st)))) = true.
Proof.
  unfold well_formed. intros H. apply andb_true_iff in H. destruct H as [Hu Hr].
  pose proof (proj1 (unique_labels_NoDup _) Hu) as Hnd.
  split.
  - apply andb_true_iff. split.
    + destruct (preprocess_data_shape w st Hnd) as [_ Hcols]. now rewrite Hcols.
    + rewrite <- Hr. apply rectangular_same_lens.
      rewrite (preprocess_data_spec w st Hnd). cbv zeta.
      destruct (check_array _ _) as [e|u]; [|destruct (imputable _)]; simpl;
        auto using filled_table_lens, clean_table_lens.
  - intros k. rewrite perform_clustering_outcome. cbv zeta.
    destruct (StandardScaler_fit_transform w _ _) as [e|X];
      [simpl; now rewrite Hu, Hr|].
    destruct (KMeans_fit w k X _) as [e|fit]; [simpl; now rewrite Hu, Hr|].
    destruct (Nat.eqb_spec (length (km_labels fit)) (df_len (df (self st)))) as [Hlen|_];
      [|simpl; now rewrite Hu, Hr].
    simpl. apply andb_true_iff. split.
    + apply unique_labels_NoDup. now apply df_setitem_NoDup.
    + apply df_setitem_rectangular; [assumption|]. simpl. now rewrite length_map.
Qed.

Lemma table_stays_well_formed_witness :
  well_formed sales_table = true /\
  well_formed
    (df (self (snd (preprocess_data calm_world (instance_of "data.csv" sales_table)))))
  = true.
Proof.
  split; [reflexivity|].
  apply (table_stays_well_formed calm_world (instance_of "data.csv" sales_table)).
  reflexivity.
Defined.

(* ===================================================================== *)
(** * What clustering changes *)
(* ===================================================================== *)

(** X14.  [perform_clustering] produces no event, changes nothing but the
    table, changes no column other than [cluster], and leaves the state as
    it found it when it raises. *)
Theorem perform_clustering_touches_only_cluster (w : World) (k : nat) (st : State) :
  (exists d', snd (perform_clustering w k st) = with_df st d') /\
  (forall e, fst (perform_clustering w k st) = inl e ->
             snd (perform_clustering w k st) = st) /\
  (forall n, n <> "cluster" ->
             df_getitem (df (self (snd (perform_clustering w k st)))) n
             = df_getitem (df (self st)) n).
Proof.
  rewrite perform_clustering_outcome. cbv zeta.
  assert (Hst : st = with_df st (df (self st))) by now destruct st as [[p e d t] tr].
  destruct (StandardScaler_fit_transform w _ _) as [e|X];
    [repeat split; auto; now exists (df (self st))|].
  destruct (KMeans_fit w k X _) as [e|fit];
    [repeat split; auto; now exists (df (self st))|].
  destruct (Nat.eqb _ _); [|repeat split; auto; now exists (df (self st))].
  simpl. split; [eexists; reflexivity|]. split; [discriminate|].
  intros n Hne. now apply df_getitem_setitem_other.
Qed.

Lemma numeric_matrix_app (d d' : DataFrame) :
  numeric_matrix (d ++ d') = numeric_matrix d ++ numeric_matrix d'.
Proof.
  unfold numeric_matrix, select_dtypes. now rewrite filter_app, map_app.
Qed.

(** X15.  The labels become a feature: after a clustering that returned on
    a table without column [cluster], the numeric columns of the table are
    the former ones followed by the labels, so that a second call of
    [perform_clustering] clusters on the labels of the first. *)
Theorem cluster_labels_join_the_features (w : World) (k : nat) (st st' : State)
    (r : ClusterResult) :
  has_column (df (self st)) "cluster" = false ->
  perform_clustering w k st = (inr r, st') ->
  exists labels,
    length labels = df_len (df (self st)) /\
    numeric_matrix (df (self st'))
    = numeric_matrix (df (self st))
      ++ [map (fun l => float_of_int (label_cell l)) labels].
Proof.
  intros Hno. rewrite perform_clustering_outcome. cbv zeta.
  destruct (StandardScaler_fit_transform w _ _) as [e|X]; [discriminate|].
  destruct (KMeans_fit w k X _) as [e|fit]; [discriminate|].
  destruct (Nat.eqb_spec (length (km_labels fit)) (df_len (df (self st)))) as [Hlen|_];
    [|discriminate].
  intros H. inversion H; subst. exists (km_labels fit). split; [assumption|].
  simpl. rewrite df_setitem_columns_absent.
  - rewrite numeric_matrix_app. unfold numeric_matrix at 2. simpl.
    now rewrite map_map.
  - intros Hin. apply has_column_In in Hin. congruence.
Qed.

Lemma cluster_labels_join_the_features_witness :
  let st := snd (init calm_world (fresh_instance "data.csv")) in
  has_column (df (self st)) "cluster" = false /\
  exists labels,
    length labels = df_len (df (self st)) /\
    numeric_matrix (df (self (snd (perform_clustering calm_world 3 st))))
    = numeric_matrix (df (self st))
      ++ [map (fun l => float_of_int (label_cell l)) labels].
Proof.
  cbv zeta. split; [reflexivity|].
  apply (cluster_labels_join_the_features calm_world 3 _ _
           (mkClusterResult (repeat [f_zero] 3) f_zero)).
  - reflexivity.
  - vm_compute. reflexivity.
Defined.

Lemma perform_clustering_labels_every_row_witness :
  let st := snd (init calm_world (fresh_instance "data.csv")) in
  exists labels,
    df_getitem (df (self (snd (perform_clustering calm_world 3 st)))) "cluster"
    = Some (ColInt (map label_cell labels)) /\
    length labels = df_len (df (self st)).
Proof.
  cbv zeta.
  apply (perform_clustering_labels_every_row calm_world 3 _ _
           (mkClusterResult (repeat [f_zero] 3) f_zero)).
  vm_compute. reflexivity.
Defined.

(* ===================================================================== *)
(** * The instance after construction *)
(* ===================================================================== *)

Lemma detected_encoding_nonempty (w : World) (raw : list ascii) :
  detected_encoding w raw <> EmptyString.
Proof.
  unfold detected_encoding. destruct (chardet_encoding w raw) as [[|c rest]|]; discriminate.
Qed.

Lemma clean_table_no_missing (w : World) (d : DataFrame) :
  all_finite (numeric_matrix (filled_table w d)) = true ->
  imputable (filled_table w d) = true ->
  forall n c, In (n, c) (clean_table w d) ->
              col_dtype c <> DDatetime -> col_missing c = 0.
Proof.
  intros Hfin Himp n c Hin Hdt.
  apply In_clean_table in Hin. destruct Hin as [c0 [H0 ->]].
  rewrite cleaned_column_missing_by_dtype.
  - destruct (impute_or_keep (fillna "Unknown" c0)); try reflexivity.
    now elim Hdt.
  - exact (all_finite_In _ Hfin n _ (In_filled_of_convert w d n c0 H0)).
  - exact (imputable_In _ Himp n _ (In_filled_of_convert w d n c0 H0)).
Qed.

(** The imputer hands back float64 columns. *)
Lemma clean_table_float64 (w : World) (d : DataFrame) :
  imputable (filled_table w d) = true ->
  forall n c, In (n, c) (clean_table w d) ->
              is_number c = true -> col_dtype c = DFloat.
Proof.
  intros Himp n c Hin Hc.
  apply In_clean_table in Hin. destruct Hin as [c0 [H0 ->]].
  pose proof (imputable_In _ Himp n _ (In_filled_of_convert w d n c0 H0)) as Hi.
  rewrite impute_or_keep_number in Hc.
  unfold col_imputable, impute_or_keep in *. rewrite Hc in *.
  destruct (impute_column _); [reflexivity | discriminate].
Qed.

(** X16.  A constructor that returns leaves this instance: the path is the
    one given, the encoding and the token are not empty, the table has the
    labels and the row count of the parsed file, at least one row and one
    numeric column, no missing value outside datetime columns, and its
    numeric columns are float64; on it the summary cannot fail.  The
    scaler accepts the table unless the imputer has written an infinity (a
    median that overflowed): then its input validation raises a
    [ValueError].  ([read_csv] returns tables with distinct labels.) *)
Theorem init_postconditions (w : World) (st st' : State) :
  (forall p e d, read_csv w p e = inr d -> unique_labels (df_columns d) = true) ->
  init w st = (inr tt, st') ->
  dataset_path (self st') = dataset_path (self st) /\
  encoding (self st') <> EmptyString /\
  api_token (self st') <> EmptyString /\
  (exists d, read_csv w (dataset_path (self st)) (encoding (self st')) = inr d /\
             df_columns (df (self st')) = df_columns d /\
             df_len (df (self st')) = df_len d) /\
  df_len (df (self st')) <> 0 /\
  select_dtypes DNumber (df (self st')) <> [] /\
  (forall n c, In (n, c) (df (self st')) ->
               col_dtype c <> DDatetime -> col_missing c = 0) /\
  (forall n c, In (n, c) (df (self st')) ->
               is_number c = true -> col_dtype c = DFloat) /\
  (exists s, get_data_summary w st' = (inr s, st')) /\
  StandardScaler_fit_transform w (numeric_matrix (df (self st')))
    (df_len (df (self st')))
  = if all_finite (numeric_matrix (df (self st')))
    then inr (scaler_values w (numeric_matrix (df (self st'))))
    else inl infinity_error.
Proof.
  intros Hw Hinit. rewrite init_unfold in Hinit.
  destruct (read_bytes w (dataset_path (self st))) as [e|raw]; [discriminate|].
  cbv zeta in Hinit.
  destruct (read_csv w (dataset_path (self st)) (detected_encoding w raw))
    as [e0|d] eqn:Hcsv; [discriminate|].
  match type of Hinit with context [preprocess_data w ?s] =>
    set (st2 := s) in *; destruct (preprocess_data w st2) as [[e|[]] st3] eqn:Hpre end;
    [discriminate|].
  destruct (getenv w "AIPROXY_TOKEN") as [[|c rest]|]; try discriminate.
  inversion Hinit; subst st'; clear Hinit.
  assert (Hnd : NoDup (df_columns (df (self st2)))).
  { apply unique_labels_NoDup. exact (Hw _ _ _ Hcsv). }
  destruct (preprocess_data_returns w st2 st3 Hnd Hpre) as [-> [Himp Hchk]].
  simpl in *.
  pose proof (clean_table_check w d Hchk) as Hchk'.
  destruct (check_array_passes _ _ Hchk) as [Hnum [Hfin Hrows]].
  rewrite filled_table_len in Hrows.
  assert (Hnum' : numeric_matrix (clean_table w d) <> []).
  { intros E. apply Hnum. apply length_zero_iff_nil.
    rewrite <- (numeric_matrix_width impute_or_keep)
      by apply impute_or_keep_number.
    fold (clean_table w d). now rewrite E. }
  split; [reflexivity|]. split; [apply detected_encoding_nonempty|].
  split; [discriminate|]. split.
  { exists d. split; [exact Hcsv|].
    split; [apply clean_table_columns | apply clean_table_len]. }
  split; [now rewrite clean_table_len|]. split.
  { intros H. apply Hnum'. unfold numeric_matrix. now rewrite H. }
  split; [now apply clean_table_no_missing|].
  split; [now apply clean_table_float64|]. split.
  - eexists. apply get_data_summary_returns. simpl.
    intros H. apply Hnum'. now rewrite H.
  - unfold StandardScaler_fit_transform. rewrite Hchk'.
    now destruct (all_finite (numeric_matrix (clean_table w d))).
Qed.

Lemma init_postconditions_witness :
  (forall p e d, read_csv calm_world p e = inr d ->
                 unique_labels (df_columns d) = true) /\
  api_token (self (snd (init calm_world (fresh_instance "data.csv")))) <> EmptyString /\
  df_len (df (self (snd (init calm_world (fresh_instance "data.csv"))))) <> 0.
Proof.
  assert (Hw : forall p e d, read_csv calm_world p e = inr d ->
                             unique_labels (df_columns d) = true).
  { intros p e d H. simpl in H. inversion H. reflexivity. }
  split; [exact Hw|].
  pose proof (init_postconditions calm_world (fresh_instance "data.csv")
                (snd (init calm_world (fresh_instance "data.csv"))) Hw) as H.
  destruct H as [_ [_ [Htok [_ [Hrows _]]]]]; [vm_compute; reflexivity|].
  split; assumption.
Defined.

(* ===================================================================== *)
(** * Counts of the Summary *)
(* ===================================================================== *)

Lemma count_none_le {A : Type} (v : list (option A)) : count_none v <= length v.
Proof.
  unfold count_none. induction v as [|[x|] v IH]; simpl; lia.
Qed.

Lemma count_nan_le (v : list float64) : count_nan v <= length v.
Proof.
  unfold count_nan. induction v as [|x v IH]; simpl; [lia|].
  destruct (isnan x); simpl; lia.
Qed.

Lemma col_missing_le (c : column) : col_missing c <= col_len c.
Proof.
  destruct c; simpl; [lia | apply count_nan_le | apply count_none_le..].
Qed.

(** X17.  In the Summary of a table whose columns have one length, no
    missing_values count exceeds total_rows. *)
Theorem missing_values_at_most_total_rows (w : World) (st st' : State) (s : Summary) :
  rectangular (df (self st)) = true ->
  get_data_summary w st = (inr s, st') ->
  forall n k, In (n, k) (missing_values s) -> k <= total_rows s.
Proof.
  intros Hr Hs n k Hin.
  assert (Hne : df (self st) <> []).
  { intros Hd. rewrite get_data_summary_outcome, Hd in Hs. discriminate. }
  rewrite (get_data_summary_returns w st Hne) in Hs.
  inversion Hs; subst; clear Hs. cbn [missing_values total_rows] in *.
  apply in_map_iff in Hin. destruct Hin as [[n0 c0] [Heq Hin0]].
  simpl in Heq. inversion Heq; subst.
  unfold rectangular in Hr. rewrite forallb_forall in Hr.
  specialize (Hr (n, c0) Hin0). simpl in Hr. apply Nat.eqb_eq in Hr.
  rewrite <- Hr. apply col_missing_le.
Qed.

Lemma missing_values_at_most_total_rows_witness :
  rectangular sales_table = true /\
  forall n k,
    In (n, k) [("date", 1); ("city", 1); ("sales", 1)] -> k <= 3.
Proof.
  split; [reflexivity|].
  apply (missing_values_at_most_total_rows calm_world
           (instance_of "data.csv" sales_table) (instance_of "data.csv" sales_table)
           (mkSummary 3 3 [("date", DObject); ("city", DObject); ("sales", DFloat)]
              [("date", 1); ("city", 1); ("sales", 1)] [])).
  - reflexivity.
  - reflexivity.
Defined.

(* ===================================================================== *)
(** * The cost of a run *)
(* ===================================================================== *)

Lemma init_no_request (w : World) (st : State) :
  chat_calls (trace (snd (init w st))) = chat_calls (trace st) /\
  sleeps (trace (snd (init w st))) = sleeps (trace st).
Proof.
  rewrite init_unfold.
  destruct (read_bytes w _) as [e|raw]; [auto|]. cbv zeta.
  destruct (read_csv w _ _) as [e0|d].
  - simpl. unfold chat_calls, sleeps. rewrite !filter_app. simpl.
    now rewrite !app_nil_r.
  - match goal with |- context [preprocess_data w ?s] =>
      destruct (preprocess_data_frame w s) as [d' Hd'];
      destruct (preprocess_data w s) as [[e|[]] st3] end;
      simpl in Hd'; subst st3;
      [|destruct (getenv w "AIPROXY_TOKEN") as [[|c rest]|]];
      simpl; unfold chat_calls, sleeps; rewrite !filter_app; simpl;
      now rewrite !app_nil_r.
Qed.

Lemma save_results_no_sleep (w : World) (s : Summary) (r : ClusterResult)
    (n : string) (st : State) :
  sleeps (trace (snd (save_results w s r n st))) = sleeps (trace st).
Proof.
  destruct (save_results_adds w s r n st) as [_ [tr' [Ht Hp]]].
  rewrite Ht. unfold sleeps. rewrite filter_app.
  assert (H : filter is_sleep tr' = []).
  { clear Ht. induction tr' as [|e tr' IH]; [reflexivity|].
    simpl in Hp. apply andb_true_iff in Hp. destruct Hp as [He Htr].
    destruct e; simpl in *; try discriminate; auto. }
  now rewrite H, app_nil_r.
Qed.

Lemma run_analysis_cost (w : World) (st : State) :
  chat_calls (trace (snd (run_analysis w st))) <= S (chat_calls (trace st)) /\
  sleeps (trace (snd (run_analysis w st))) = sleeps (trace st).
Proof.
  rewrite run_analysis_unfold, get_data_summary_outcome.
  destruct (df (self st)) as [|nc rest] eqn:Hd; [simpl; split; [lia | reflexivity]|].
  destruct (perform_clustering_frame w 3 st) as [d' [Hd' _]].
  destruct (perform_clustering w 3 st) as [[e|r] st2]; simpl in Hd'; subst.
  - simpl. split; [lia | reflexivity].
  - match goal with |- context [generate_narrative w ?s0 r _] =>
      destruct (run_analysis_tail w s0 r st d')
        as [text [st3 [Hrun [_ [_ [Hchat _]]]]]];
      destruct (generate_narrative_one_request w s0 r (with_df st d'))
        as [text' [st3' [Hrun' [_ [_ [Hsl _]]]]]] end.
    rewrite Hrun in Hrun'. inversion Hrun'; subst text' st3'.
    rewrite Hrun. split; [rewrite Hchat; lia|].
    rewrite save_results_no_sleep. exact Hsl.
Qed.

(** X19.  A run of the script sends at most one request to the
    text-generation service and never sleeps, in any world. *)
Theorem main_at_most_one_request (w : World) (path : string) :
  chat_calls (trace (snd (main w path))) <= 1 /\
  sleeps (trace (snd (main w path))) = [].
Proof.
  destruct (main_unfold w path) as [msg Hm]. rewrite Hm.
  destruct (init_no_request w (after_probe path msg)) as [Hc Hs].
  change (chat_calls (trace (after_probe path msg))) with 0 in Hc.
  change (sleeps (trace (after_probe path msg))) with (@nil event) in Hs.
  destruct (init w (after_probe path msg)) as [[e|[]] st1]; cbn [snd] in *.
  - rewrite Hc, Hs. split; [lia | reflexivity].
  - destruct (run_analysis_cost w st1) as [Hc' Hs'].
    rewrite Hs', Hs. split; [lia | reflexivity].
Qed.
